(** * The order front-end server: a shallow embedding of [order/order.go]

    The Go package [order] wires one listening socket to a native gRPC
    server and to an HTTP multiplexer (metrics, health, JSON gateway),
    builds the server-side interceptor chain and dials the item service.

    Conventions of the embedding:
    - Go [string]s are [string]s, indices and [int] fields are [Z];
    - [time.Duration] is a [Z] number of nanoseconds;
    - a Go [error] is [option error] ([None] is [nil]);
    - [http.Header] is a finite map from canonical keys to value lists;
    - calls that leave the package (dialing, listening, serving) are
      answered by a [World] record and logged as [Event]s. *)

From Stdlib Require Import ZArith Ascii String List Bool Lia.
From stdpp Require Import base option list strings gmap.

Local Open Scope string_scope.
Local Open Scope Z_scope.

(** ** Go strings *)

Module strings.

(** [strings.HasPrefix(s, prefix)]. *)
Fixpoint HasPrefix (s prefix : string) {struct prefix} : bool :=
  match prefix, s with
  | EmptyString, _ => true
  | String c p, String d t => if Ascii.eqb c d then HasPrefix t p else false
  | String _ _, EmptyString => false
  end.

(** [strings.Index(s, substr)]: the index of the first instance of
    [substr] in [s], or [-1]. *)
Fixpoint Index (s substr : string) : Z :=
  if HasPrefix s substr then 0
  else match s with
       | EmptyString => -1
       | String _ t => let i := Index t substr in
                       if i <? 0 then -1 else i + 1
       end.

(** [strings.Contains(s, substr)] is [Index(s, substr) >= 0]. *)
Definition Contains (s substr : string) : bool := 0 <=? Index s substr.

(** [strings.IndexByte(s, c)]. *)
Fixpoint IndexByte (s : string) (c : ascii) : Z :=
  match s with
  | EmptyString => -1
  | String d t => if Ascii.eqb d c then 0
                  else let i := IndexByte t c in
                       if i <? 0 then -1 else i + 1
  end.

(** [strings.LastIndexByte(s, c)]. *)
Fixpoint LastIndexByte (s : string) (c : ascii) : Z :=
  match s with
  | EmptyString => -1
  | String d t => let i := LastIndexByte t c in
                  if i <? 0 then (if Ascii.eqb d c then 0 else -1)
                  else i + 1
  end.

(** [len(s)]. *)
Definition len (s : string) : Z := Z.of_nat (String.length s).

(** The slice expression [s[lo:hi]], for [0 <= lo <= hi <= len(s)]. *)
Definition slice (s : string) (lo hi : Z) : string :=
  String.substring (Z.to_nat lo) (Z.to_nat (hi - lo)) s.

(** [s[lo:]]. *)
Definition sliceFrom (s : string) (lo : Z) : string := slice s lo (len s).

(** [s[i]], [None] when out of range (where Go panics). *)
Definition byteAt (s : string) (i : Z) : option ascii :=
  if i <? 0 then None else String.get (Z.to_nat i) s.

End strings.

(** ** Errors *)

(** The error values the package sees: the sentinel
    [http.ErrServerClosed], errors produced by collaborators, and
    [errors.Wrap(cause, msg)] of a non-nil cause. *)
Inductive error : Type :=
| ErrServerClosed
| ErrDeadlineExceeded
| ErrOther (msg : string)
| Wrap (cause : error) (msg : string).

#[global] Instance error_eq_dec : EqDecision error.
Proof. solve_decision. Defined.

(** ** HTTP requests and responses *)

Module http.

(** [textproto.CanonicalMIMEHeaderKey]: the first letter and every
    letter after a hyphen in upper case, the others in lower case; a
    key with a byte that is not a token character is left alone. *)
Definition isLower (c : ascii) : bool :=
  let n := nat_of_ascii c in (97 <=? n)%nat && (n <=? 122)%nat.
Definition isUpper (c : ascii) : bool :=
  let n := nat_of_ascii c in (65 <=? n)%nat && (n <=? 90)%nat.
Definition isDigit (c : ascii) : bool :=
  let n := nat_of_ascii c in (48 <=? n)%nat && (n <=? 57)%nat.
Definition toUpper (c : ascii) : ascii :=
  if isLower c then ascii_of_nat (nat_of_ascii c - 32) else c.
Definition toLower (c : ascii) : ascii :=
  if isUpper c then ascii_of_nat (nat_of_ascii c + 32) else c.

Definition validHeaderFieldByte (c : ascii) : bool :=
  isLower c || isUpper c || isDigit c
  || (0 <=? strings.IndexByte "!#$%&'*+-.^_`|~" c).

Fixpoint allValid (s : string) : bool :=
  match s with
  | EmptyString => true
  | String c t => validHeaderFieldByte c && allValid t
  end.

Fixpoint canonicalFrom (upper : bool) (s : string) : string :=
  match s with
  | EmptyString => EmptyString
  | String c t =>
      String (if upper then toUpper c else toLower c)
             (canonicalFrom (Ascii.eqb c "-") t)
  end.

Definition CanonicalMIMEHeaderKey (s : string) : string :=
  if allValid s then canonicalFrom true s else s.

(** [http.Header] is [map[string][]string]. *)
Abbreviation Header := (gmap string (list string)).

(** [Header.Get(key)]: the first value stored under the canonical form
    of [key], or the empty string. *)
Definition Get (h : Header) (key : string) : string :=
  match h !! CanonicalMIMEHeaderKey key with
  | Some (v :: _) => v
  | _ => ""
  end.

(** The fields of [*http.Request] the package reads. *)
Record Request : Type := mkRequest {
  Method : string;
  Path : string;
  ProtoMajor : Z;
  Hdr : Header;
  Body : string
}.

(** What a handler has done to its [http.ResponseWriter]: the status
    written ([None] while no header has gone out) and the body bytes. *)
Record ResponseWriter : Type := mkWriter {
  status : option Z;
  header : list (string * string);
  body : string;
  trailer : list (string * string)
}.

Definition StatusOK : Z := 200.
Definition StatusInternalServerError : Z := 500.
Definition StatusNotFound : Z := 404.
Definition StatusMovedPermanently : Z := 301.

Definition freshWriter : ResponseWriter :=
  {| status := None; header := []; body := ""; trailer := [] |}.

(** [w.WriteHeader(code)]; a second call is ignored. *)
Definition WriteHeader (w : ResponseWriter) (code : Z) : ResponseWriter :=
  match status w with
  | Some _ => w
  | None => {| status := Some code; header := header w;
               body := body w; trailer := trailer w |}
  end.

(** [w.Write(p)]: sends the header with [StatusOK] first if none has
    been written. *)
Definition Write (w : ResponseWriter) (p : string) : ResponseWriter :=
  let w' := WriteHeader w StatusOK in
  {| status := status w'; header := header w';
     body := body w' ++ p; trailer := trailer w' |}.

(** Setting a trailer of the response. *)
Definition SetTrailer (w : ResponseWriter) (k v : string) : ResponseWriter :=
  {| status := status w; header := header w;
     body := body w; trailer := trailer w ++ [(k, v)] |}.

(** [w.Header().Set(k, v)], before the header has gone out. *)
Definition SetHeader (w : ResponseWriter) (k v : string) : ResponseWriter :=
  match status w with
  | Some _ => w
  | None => {| status := None; header := header w ++ [(k, v)];
               body := body w; trailer := trailer w |}
  end.

(** [http.Error(w, msg, code)]. *)
Definition Error (w : ResponseWriter) (msg : string) (code : Z)
  : ResponseWriter :=
  Write (WriteHeader w code) (msg ++ String (ascii_of_nat 10) "").

Definition Handler : Type := ResponseWriter -> Request -> ResponseWriter.

(** [http.ServeMux] with the patterns of this package: a pattern that
    does not end in a slash matches that path only, one that ends in a
    slash matches every path it is a prefix of, and the longest
    matching pattern wins. *)
Definition endsInSlash (p : string) : bool :=
  match strings.byteAt p (strings.len p - 1) with
  | Some c => Ascii.eqb c "/"
  | None => false
  end.

Definition pathMatch (pattern path : string) : bool :=
  if endsInSlash pattern then strings.HasPrefix path pattern
  else String.eqb pattern path.

Definition ServeMux (H : Type) : Type := list (string * H).

Fixpoint matchLongest {H} (m : ServeMux H) (path : string)
         (best : option (string * H)) : option (string * H) :=
  match m with
  | [] => best
  | (p, h) :: rest =>
      let better :=
        match best with
        | None => true
        | Some (q, _) => (String.length q <? String.length p)%nat
        end in
      matchLongest rest path
        (if pathMatch p path && better then Some (p, h) else best)
  end.

Definition muxHandler {H} (m : ServeMux H) (path : string) : option H :=
  snd <$> matchLongest m path None.

Definition NotFound : Handler :=
  fun w _ => Error w "404 page not found" StatusNotFound.

(** [path.Clean] on a rooted path: empty and dot elements go, a
    dot-dot element takes the element before it with it (or goes alone
    at the root), and the rest is joined by single slashes. *)
Fixpoint elements (p cur : string) : list string :=
  match p with
  | EmptyString => [cur]
  | String c t =>
      if Ascii.eqb c "/" then cur :: elements t ""
      else elements t (cur ++ String c "")
  end.

Definition keep (stack : list string) (el : string) : list string :=
  if String.eqb el "" || String.eqb el "." then stack
  else if String.eqb el ".." then tail stack
  else el :: stack.

Definition Clean (p : string) : string :=
  "/" ++ String.concat "/" (rev (fold_left keep (elements p "") [])).

(** [cleanPath] of the mux: the path is rooted, cleaned, and keeps a
    trailing slash. *)
Definition cleanPath (p : string) : string :=
  if String.eqb p "" then "/"
  else
    let p := if strings.HasPrefix p "/" then p else "/" ++ p in
    let np := Clean p in
    if endsInSlash p && negb (String.eqb np "/") then np ++ "/" else np.

(** [http.RedirectHandler(url, code)]; the short HTML body written for
    GET and HEAD is left out. *)
Definition Redirect (url : string) (code : Z) : Handler :=
  fun w _ => WriteHeader (SetHeader w "Location" url) code.

(** [mux.ServeHTTP]: a request other than CONNECT whose path is not
    clean is redirected to the clean path; otherwise the handler of
    the longest matching pattern serves it. *)
Definition muxServeHTTP (m : ServeMux Handler) : Handler :=
  fun w r =>
    if negb (String.eqb (Method r) "CONNECT")
       && negb (String.eqb (cleanPath (Path r)) (Path r))
    then Redirect (cleanPath (Path r)) StatusMovedPermanently w r
    else match muxHandler m (Path r) with
         | Some h => h w r
         | None => NotFound w r
         end.

End http.
Import http.

(** ** The request demultiplexer of [Run] *)

Definition grpcContentType : string := "application/grpc".

(** The condition of the handler closure installed in [Run]. *)
Definition isGrpcRequest (r : Request) : bool :=
  (ProtoMajor r =? 2)
  && strings.Contains (Get (Hdr r) "Content-Type") grpcContentType.

(** The closure itself, over the two targets it chooses between. *)
Definition rootHandler {W A} (grpcServe muxServe : W -> Request -> A)
  : W -> Request -> A :=
  fun w r => if isGrpcRequest r then grpcServe w r else muxServe w r.

Inductive Target : Type := ToGrpc | ToMux.

#[global] Instance Target_eq_dec : EqDecision Target.
Proof. solve_decision. Defined.

Definition dispatch : Request -> Target :=
  rootHandler (fun _ _ => ToGrpc) (fun _ _ => ToMux) tt.

(** The requests of one connection, served one after the other: the
    closure captures no mutable state, so the server state threaded
    through is the count of requests seen. *)
Fixpoint serveConn (seen : nat) (rs : list Request) : list (nat * Target) :=
  match rs with
  | [] => []
  | r :: rest => (seen, dispatch r) :: serveConn (S seen) rest
  end.

(** ** Time *)

Module time.
(** [time.Duration]: nanoseconds. *)
Definition Duration : Type := Z.
Definition Second : Duration := 1000000000.
End time.

(** ** gRPC calls and interceptors *)

Module grpc.

(** The status codes of failed calls ([codes.OK] is a reply). *)
Inductive Code : Type :=
| Unknown | InvalidArgument | NotFound | Unauthenticated
| Unavailable | Internal | Unimplemented.

#[global] Instance Code_eq_dec : EqDecision Code.
Proof. solve_decision. Defined.

(** The call context: the values attached to it. *)
Definition Ctx : Type := list (string * string).

(** One unary call: the full method name and the request message. *)
Record Call : Type := mkCall {
  fullMethod : string;
  message : string
}.

(** What a unary call yields: a reply message or an error status. *)
Inductive Result : Type :=
| Reply (msg : string)
| Status (code : Code) (msg : string).

#[global] Instance Result_eq_dec : EqDecision Result.
Proof. solve_decision. Defined.

(** The stages registered on the server side in [Run], by the call
    that builds each: [util.UnaryServerInterceptor()],
    [util.UnaryServerSleeperInterceptor(d)],
    [grpc_validator.UnaryServerInterceptor()],
    [grpc_prometheus.UnaryServerInterceptor],
    [grpc_zap.UnaryServerInterceptor(logger)] and
    [grpc_recovery.UnaryServerInterceptor()]. *)
Inductive ServerStage : Type :=
| UtilServer
| UtilSleeper (d : time.Duration)
| Validator
| PrometheusServer
| ZapLogging
| Recovery.

#[global] Instance ServerStage_eq_dec : EqDecision ServerStage.
Proof. solve_decision. Defined.

(** The stages registered on the client connection in [New]:
    [util.UnaryClientInterceptor()] and
    [grpc_prometheus.UnaryClientInterceptor]; on streams,
    [grpc_prometheus.StreamClientInterceptor]. *)
Inductive ClientStage : Type :=
| UtilClient
| PrometheusClient.

#[global] Instance ClientStage_eq_dec : EqDecision ClientStage.
Proof. solve_decision. Defined.

Inductive StreamClientStage : Type :=
| PrometheusStreamClient.

#[global] Instance StreamClientStage_eq_dec : EqDecision StreamClientStage.
Proof. solve_decision. Defined.

Inductive DialOption : Type :=
| WithInsecure
| WithUnaryInterceptor (chain : list ClientStage)
| WithStreamInterceptor (chain : list StreamClientStage).

#[global] Instance DialOption_eq_dec : EqDecision DialOption.
Proof. solve_decision. Defined.

(** [*grpc.ClientConn]: the target and the options it was dialed with. *)
Record ClientConn : Type := mkConn {
  target : string;
  dopts : list DialOption
}.

(** The unary interceptors a connection runs on every outbound call:
    the last [WithUnaryInterceptor] option wins. *)
Fixpoint unaryInterceptors (opts : list DialOption) : list ClientStage :=
  match opts with
  | [] => []
  | WithUnaryInterceptor c :: rest =>
      match unaryInterceptors rest with
      | [] => c
      | later => later
      end
  | _ :: rest => unaryInterceptors rest
  end.

(** What happens inside one call, in order. *)
Inductive CallEvent : Type :=
| Enter (st : ServerStage)
| Leave (st : ServerStage)
| Invoke (ctx : Ctx) (c : Call).

(** A call computes in a writer over [CallEvent]s. *)
Definition M (A : Type) : Type := A * list CallEvent.
Definition ret {A} (a : A) : M A := (a, []).
Definition bind {A B} (m : M A) (k : A -> M B) : M B :=
  let '(a, l1) := m in let '(b, l2) := k a in (b, (l1 ++ l2)%list).
Definition tell (e : CallEvent) : M unit := (tt, [e]).

(** [grpc.UnaryHandler] and [grpc.UnaryServerInterceptor] (the
    [info] argument is the call's method name, carried by [Call]). *)
Definition UnaryHandler : Type := Ctx -> Call -> M Result.
Definition UnaryServerInterceptor : Type :=
  Ctx -> Call -> UnaryHandler -> M Result.

(** [grpc_middleware.ChainUnaryServer]: the first interceptor is the
    outermost, and the handler each one receives runs the rest of the
    chain; an empty chain calls the handler. *)
Fixpoint ChainUnaryServer (interceptors : list UnaryServerInterceptor)
  : UnaryServerInterceptor :=
  match interceptors with
  | [] => fun ctx req handler => handler ctx req
  | i :: rest =>
      fun ctx req handler =>
        i ctx req (fun ctx' req' => ChainUnaryServer rest ctx' req' handler)
  end.

(** What one stage does around the rest of the chain: before, it
    either derives the context it passes on or ends the call with a
    status of its own; after, it may rewrite the outcome. Each of the
    six stages has this shape and calls its handler at most once. *)
Record Behaviour : Type := mkBehaviour {
  before : Ctx -> Call -> Ctx + Result;
  after : Ctx -> Call -> Result -> Result
}.

Definition runStage (st : ServerStage) (b : Behaviour)
  : UnaryServerInterceptor :=
  fun ctx req handler =>
    bind (tell (Enter st)) (fun _ =>
    bind (match before b ctx req with
          | inl ctx' => bind (handler ctx' req)
                          (fun r => ret (after b ctx req r))
          | inr r => ret r
          end) (fun r =>
    bind (tell (Leave st)) (fun _ => ret r))).

(** The stages a call entered, in order, and whether it reached the
    service method. *)
Fixpoint entered (l : list CallEvent) : list ServerStage :=
  match l with
  | [] => []
  | Enter st :: rest => st :: entered rest
  | _ :: rest => entered rest
  end.

Fixpoint invocations (l : list CallEvent) : nat :=
  match l with
  | [] => O
  | Invoke _ _ :: rest => S (invocations rest)
  | _ :: rest => invocations rest
  end.

(** [*grpc.Server]: the unary interceptor chain given to
    [grpc.NewServer] and the number of registered order services. *)
Record Server (store : Type) : Type := mkServer {
  chain : list ServerStage;
  services : list store
}.
Arguments mkServer {store}.
Arguments chain {store}.
Arguments services {store}.

End grpc.

(** ** Addresses *)

Module net.

(** [&net.AddrError{Err: why, Addr: addr}]; its text names the address
    unless that is empty. *)
Definition addrErr (addr why : string) : error :=
  ErrOther (if String.eqb addr "" then why
            else "address " ++ addr ++ ": " ++ why).

Definition missingPort : string := "missing port in address".
Definition tooManyColons : string := "too many colons in address".

(** [net.SplitHostPort]: the port starts after the last colon; a host
    in brackets must end right before that colon; no other colon or
    bracket may occur. *)
Definition SplitHostPort (hostport : string) : (string * string) + error :=
  let i := strings.LastIndexByte hostport ":" in
  if i <? 0 then inr (addrErr hostport missingPort)
  else
    let checked (host : string) (j k : Z) : (string * string) + error :=
      if 0 <=? strings.IndexByte (strings.sliceFrom hostport j) "["
      then inr (addrErr hostport "unexpected '[' in address")
      else if 0 <=? strings.IndexByte (strings.sliceFrom hostport k) "]"
      then inr (addrErr hostport "unexpected ']' in address")
      else inl (host, strings.sliceFrom hostport (i + 1)) in
    if bool_decide (strings.byteAt hostport 0 = Some "["%char) then
      let end_ := strings.IndexByte hostport "]" in
      if end_ <? 0 then inr (addrErr hostport "missing ']' in address")
      else if end_ + 1 =? strings.len hostport
      then inr (addrErr hostport missingPort)
      else if end_ + 1 =? i
      then checked (strings.slice hostport 1 end_) 1 (end_ + 1)
      else if bool_decide (strings.byteAt hostport (end_ + 1) = Some ":"%char)
      then inr (addrErr hostport tooManyColons)
      else inr (addrErr hostport missingPort)
    else
      let host := strings.slice hostport 0 i in
      if 0 <=? strings.IndexByte host ":"
      then inr (addrErr hostport tooManyColons)
      else checked host 0 0.

(** [net.JoinHostPort]: a host with a colon goes in brackets. *)
Definition JoinHostPort (host port : string) : string :=
  if 0 <=? strings.IndexByte host ":"
  then "[" ++ host ++ "]:" ++ port
  else host ++ ":" ++ port.

End net.

(** ** The server and what it holds *)

(** [item.ItemServiceClient], built by [item.NewItemServiceClient(conn)]:
    a typed client over the connection. *)
Record ItemServiceClient : Type := mkItemClient {
  cc : grpc.ClientConn
}.

(** Modelled from the spec: [orderStore], [newOrderStore] and
    [LoadSampleData] live in a file of the package that is not part of
    the sources at hand. The store is reduced to the item client it was
    given and the number of times its sample data was loaded. *)
Record orderStore : Type := mkStore {
  storeItem : ItemServiceClient;
  sampleLoads : nat
}.

Definition newOrderStore (c : ItemServiceClient) : orderStore :=
  {| storeItem := c; sampleLoads := O |}.

Definition LoadSampleData (st : orderStore) : orderStore :=
  {| storeItem := storeItem st; sampleLoads := S (sampleLoads st) |}.

(** The gateway mux of [runtime.NewServeMux()] after
    [order.RegisterOrderServiceHandlerFromEndpoint]: all it is given is
    the endpoint to dial and the dial options. *)
Record GatewayMux : Type := mkGateway {
  upstream : string;
  gwOpts : list grpc.DialOption
}.

(** The handlers mounted on the HTTP mux in [Run]. *)
Inductive MuxTarget : Type :=
| Metrics
| Healthz
| Gateway (gw : GatewayMux).

(** [*http.Server] as [Run] builds it, with the run-time state that
    [Serve] and [Shutdown] act on: whether the listener is open, whether
    shutdown has begun, and for each connection with a request in flight
    the time it still needs ([None]: it never finishes). *)
Record HttpServer : Type := mkHttpServer {
  routes : ServeMux MuxTarget;
  listening : bool;
  inShutdown : bool;
  active : list (option time.Duration)
}.

(** [type Server struct]. A nil pointer field is [None]. *)
Record Server : Type := mkServerStruct {
  address : string;
  endpoint : string;
  server : option HttpServer;
  grpc : option (grpc.Server (option orderStore));
  store : option orderStore;
  item : option ItemServiceClient
}.

(** [OptionsFunc], a function from a [Server] pointer to [error]: it may
    update the server it is handed and may fail. *)
Definition OptionsFunc : Type := Server -> Server * option error.

(** ** The outside world *)

(** Calls that leave the package, in the order they are made. *)
Inductive Event : Type :=
| EvDialContext (target : string) (opts : list grpc.DialOption)
| EvNewItemServiceClient
| EvNewOrderStore
| EvLoadSampleData
| EvNewDefaultLogger
| EvListen (network addr : string)
| EvReplaceGrpcLogger
| EvEnableHandlingTimeHistogram
| EvNewServer (chain : list grpc.ServerStage)
| EvRegisterGateway (endpoint : string) (opts : list grpc.DialOption)
| EvRegisterOrderServiceServer
| EvServe
| EvShutdown (timeout : time.Duration).

#[global] Instance Event_eq_dec : EqDecision Event.
Proof. solve_decision. Defined.

(** What [server.Serve(l)] does: it is still serving, or it has
    returned. *)
Inductive ServeResult : Type :=
| Serving
| ServeReturned (err : option error).

(** The answers of the collaborators. *)
Record World : Type := mkWorld {
  dialErr : string -> option error;
  loggerErr : option error;
  listenErr : string -> option error;
  gatewayErr : string -> option error;
  serveRet : ServeResult
}.

(** ** Go function bodies: state, early return, blocking *)

Record St : Type := mkSt {
  self : Server;
  events : list Event
}.

Inductive Step (R A : Type) : Type :=
| Next (a : A)
| Return (r : R)
| Blocked.
Arguments Next {R A}.
Arguments Return {R A}.
Arguments Blocked {R A}.

Definition Go (R A : Type) : Type := St -> Step R A * St.

Definition pure {R A} (a : A) : Go R A := fun st => (Next a, st).

Definition andThen {R A B} (m : Go R A) (k : A -> Go R B) : Go R B :=
  fun st => match m st with
            | (Next a, st') => k a st'
            | (Return r, st') => (Return r, st')
            | (Blocked, st') => (Blocked, st')
            end.

Notation "'let!' x ':=' m 'in' k" := (andThen m (fun x => k))
  (at level 10, x name, m at level 100, k at level 200).
Notation "'run!' m 'in' k" := (andThen m (fun _ => k))
  (at level 10, m at level 100, k at level 200).

Definition returnWith {R A} (r : R) : Go R A := fun st => (Return r, st).
Definition block {R A} : Go R A := fun st => (Blocked, st).
Definition emit {R} (e : Event) : Go R unit :=
  fun st => (Next tt, {| self := self st; events := (events st ++ [e])%list |}).
Definition this {R} : Go R Server := fun st => (Next (self st), st).
Definition update {R} (f : Server -> Server) : Go R unit :=
  fun st => (Next tt, {| self := f (self st); events := events st |}).

(** How a function body ends. *)
Inductive Outcome (R : Type) : Type :=
| Returned (r : R)
| Blocking.
Arguments Returned {R}.
Arguments Blocking {R}.

Definition exec {R} (m : Go R R) (st : St) : Outcome R * St :=
  match m st with
  | (Next r, st') => (Returned r, st')
  | (Return r, st') => (Returned r, st')
  | (Blocked, st') => (Blocking, st')
  end.

(** [if err != nil { return errors.Wrap(err, msg) }]. *)
Definition failWith {R} (mk : error -> R) (err : option error) (msg : string)
  : Go R unit :=
  match err with
  | Some e => returnWith (mk (Wrap e msg))
  | None => pure tt
  end.

Definition setItem (c : ItemServiceClient) (s : Server) : Server :=
  {| address := address s; endpoint := endpoint s; server := server s;
     grpc := grpc s; store := store s; item := Some c |}.
Definition setStore (o : option orderStore) (s : Server) : Server :=
  {| address := address s; endpoint := endpoint s; server := server s;
     grpc := grpc s; store := o; item := item s |}.
Definition setGrpc (g : grpc.Server (option orderStore)) (s : Server) : Server :=
  {| address := address s; endpoint := endpoint s; server := server s;
     grpc := Some g; store := store s; item := item s |}.
Definition setServer (h : HttpServer) (s : Server) : Server :=
  {| address := address s; endpoint := endpoint s; server := Some h;
     grpc := grpc s; store := store s; item := item s |}.
Definition setAddress (a : string) (s : Server) : Server :=
  {| address := a; endpoint := endpoint s; server := server s;
     grpc := grpc s; store := store s; item := item s |}.
Definition setEndpoint (a : string) (s : Server) : Server :=
  {| address := address s; endpoint := a; server := server s;
     grpc := grpc s; store := store s; item := item s |}.

(** ** [New], [SetAddress], [SetEndpoint] *)

Definition newline : string := String (ascii_of_nat 10) EmptyString.

(** The result pair of [New]. *)
Definition NewResult : Type := option Server * option error.

(** [grpc.DialContext(ctx, target, opts...)]. *)
Definition DialContext {R} (w : World) (target : string)
           (opts : list grpc.DialOption) : Go R (grpc.ClientConn + error) :=
  run! emit (EvDialContext target opts) in
  pure (match dialErr w target with
        | Some e => inr e
        | None => inl {| grpc.target := target; grpc.dopts := opts |}
        end).

(** The dial options of [New]. *)
Definition itemDialOptions : list grpc.DialOption :=
  [ grpc.WithInsecure;
    grpc.WithUnaryInterceptor [grpc.UtilClient; grpc.PrometheusClient];
    grpc.WithStreamInterceptor [grpc.PrometheusStreamClient] ].

(** [for _, f := range options { if err := f(s); err != nil { return ... } }]. *)
Fixpoint applyOptions (options : list OptionsFunc) : Go NewResult unit :=
  match options with
  | [] => pure tt
  | f :: rest =>
      let! err := (fun st => let '(s', e) := f (self st) in
                             (Next e, {| self := s'; events := events st |})) in
      run! failWith (fun e => (None, Some e)) err "options function failed" in
      applyOptions rest
  end.

Definition defaultServer : Server :=
  {| address := ":8080"; endpoint := "127.0.0.1:9090";
     server := None; grpc := None; store := None; item := None |}.

Definition NewBody (w : World) (options : list OptionsFunc)
  : Go NewResult NewResult :=
  run! applyOptions options in
  let! s := this in
  let! dialed := DialContext w (endpoint s) itemDialOptions in
  match dialed with
  | inr err => returnWith (None, Some (Wrap err "could not create grpc client"))
  | inl conn =>
      run! emit EvNewItemServiceClient in
      run! update (setItem {| cc := conn |}) in
      run! emit EvNewOrderStore in
      run! update (fun s => setStore (newOrderStore <$> item s) s) in
      run! emit EvLoadSampleData in
      run! update (fun s => setStore (LoadSampleData <$> store s) s) in
      let! s := this in
      returnWith (Some s, None)
  end.

Definition New (w : World) (options : list OptionsFunc)
  : Outcome NewResult * St :=
  exec (NewBody w options) {| self := defaultServer; events := [] |}.

Definition SetAddress (address : string) : OptionsFunc :=
  fun s => (setAddress address s, None).

Definition SetEndpoint (address : string) : OptionsFunc :=
  fun s => (setEndpoint address s, None).

(** ** [Run] *)

(** The interceptors handed to [grpc_middleware.ChainUnaryServer]. *)
Definition serverInterceptors : list grpc.ServerStage :=
  [ grpc.UtilServer;
    grpc.UtilSleeper (time.Second * 3);
    grpc.Validator;
    grpc.PrometheusServer;
    grpc.ZapLogging;
    grpc.Recovery ].

Definition gatewayDialOptions : list grpc.DialOption := [grpc.WithInsecure].

(** The mux of [Run]: metrics, health, and the gateway for the rest. *)
Definition newMux (gwmux : GatewayMux) : ServeMux MuxTarget :=
  [ ("/metrics", Metrics); ("/healthz", Healthz); ("/", Gateway gwmux) ].

(** [s.server.Serve(l)]: blocks while serving; the listener is closed
    when it returns. *)
Definition setListening (b : bool) (h : HttpServer) : HttpServer :=
  {| routes := routes h; listening := b;
     inShutdown := inShutdown h; active := active h |}.

Definition Serve {R} (w : World) : Go R (option error) :=
  run! emit EvServe in
  run! update (fun s => match server s with
                        | Some h => setServer (setListening true h) s
                        | None => s
                        end) in
  match serveRet w with
  | Serving => block
  | ServeReturned err =>
      run! update (fun s => match server s with
                            | Some h => setServer (setListening false h) s
                            | None => s
                            end) in
      pure err
  end.

Definition RunBody (w : World) : Go (option error) (option error) :=
  let! s := this in
  run! emit EvNewDefaultLogger in
  run! failWith Some (loggerErr w) "failed to create logger" in
  run! emit (EvListen "tcp" (address s)) in
  run! failWith Some (listenErr w (address s))
                ("failed to listen on " ++ address s) in
  run! emit EvReplaceGrpcLogger in
  run! emit EvEnableHandlingTimeHistogram in
  run! emit (EvNewServer serverInterceptors) in
  run! update (setGrpc {| grpc.chain := serverInterceptors;
                          grpc.services := [] |}) in
  match net.SplitHostPort (address s) with
  | inr err => returnWith (Some (Wrap err ("invalid address " ++ address s)))
  | inl (_, port) =>
      let gwEndpoint := net.JoinHostPort "127.0.0.1" port in
      run! emit (EvRegisterGateway gwEndpoint gatewayDialOptions) in
      run! failWith Some (gatewayErr w gwEndpoint)
                    "failed to register grpc gateway" in
      let gwmux := {| upstream := gwEndpoint; gwOpts := gatewayDialOptions |} in
      run! emit EvRegisterOrderServiceServer in
      run! update (fun s =>
             match grpc s with
             | Some g => setGrpc {| grpc.chain := grpc.chain g;
                                    grpc.services :=
                                      (grpc.services g ++ [store s])%list |} s
             | None => s
             end) in
      run! update (setServer {| routes := newMux gwmux; listening := false;
                                inShutdown := false; active := [] |}) in
      let! err := Serve w in
      match err with
      | Some e =>
          if bool_decide (e <> ErrServerClosed)
          then returnWith (Some (Wrap e "failed to start http server"))
          else pure None
      | None => pure None
      end
  end.

Definition Run (w : World) (s : Server) : Outcome (option error) * St :=
  exec (RunBody w) {| self := s; events := [] |}.

(** ** [Stop] *)

Module shutdown.

(** The time until every active connection is idle: [None] when one of
    them never is. *)
Fixpoint drainTime (conns : list (option time.Duration)) : option time.Duration :=
  match conns with
  | [] => Some 0
  | None :: _ => None
  | Some d :: rest => Z.max d <$> drainTime rest
  end.

(** The connections still busy after [t] has passed. *)
Fixpoint advance (t : time.Duration) (conns : list (option time.Duration))
  : list (option time.Duration) :=
  match conns with
  | [] => []
  | None :: rest => None :: advance t rest
  | Some d :: rest =>
      if d <=? t then advance t rest else Some (d - t) :: advance t rest
  end.

(** [srv.Shutdown(ctx)] for a context that expires after [timeout]:
    marks the server as shutting down, closes the listener, then waits
    until the active connections are idle or the context is done. The
    result is the error returned, the time the call took and the
    server afterwards. *)
Definition Shutdown (h : HttpServer) (timeout : time.Duration)
  : option error * time.Duration * HttpServer :=
  let closed (conns : list (option time.Duration)) :=
    {| routes := routes h; listening := false;
       inShutdown := true; active := conns |} in
  match drainTime (active h) with
  | Some need =>
      if need <=? timeout then (None, need, closed [])
      else (Some ErrDeadlineExceeded, Z.max 0 timeout,
            closed (advance timeout (active h)))
  | None => (Some ErrDeadlineExceeded, Z.max 0 timeout,
             closed (advance timeout (active h)))
  end.

End shutdown.

Inductive StopOutcome : Type :=
| Panicked (msg : string)
| Stopped (elapsed : time.Duration) (s : Server).

Definition nilDereference : string :=
  "runtime error: invalid memory address or nil pointer dereference".

(** [Stop]: [s.server.Shutdown(ctx)] under a context that times out
    after ten seconds; the error of [Shutdown] is dropped. Calling a
    method that reads the fields of a nil [s.server] panics. *)
Definition stopTimeout : time.Duration := time.Second * 10.

Definition Stop (s : Server) : StopOutcome :=
  match server s with
  | None => Panicked nilDereference
  | Some h =>
      let '(_, elapsed, h') := shutdown.Shutdown h stopTimeout in
      Stopped elapsed (setServer h' s)
  end.

(** ** [healthz] *)

Definition healthz : Handler :=
  fun wr r => Write wr ("OK" ++ newline).

(** ** Serving requests *)

(** gRPC over HTTP/2 as the Go gRPC library frames a unary call when the
    server is used as an [http.Handler]: the method is the path, the
    message the body, and the outcome travels in the trailers. *)
Module wire.

Definition codeNumber (c : grpc.Code) : string :=
  match c with
  | grpc.Unknown => "2"
  | grpc.InvalidArgument => "3"
  | grpc.NotFound => "5"
  | grpc.Unimplemented => "12"
  | grpc.Internal => "13"
  | grpc.Unavailable => "14"
  | grpc.Unauthenticated => "16"
  end.

Definition codeOfNumber (n : string) : option grpc.Code :=
  List.find (fun c => String.eqb (codeNumber c) n)
    [ grpc.Unknown; grpc.InvalidArgument; grpc.NotFound; grpc.Unimplemented;
      grpc.Internal; grpc.Unavailable; grpc.Unauthenticated ].

Fixpoint lookup (k : string) (l : list (string * string)) : option string :=
  match l with
  | [] => None
  | (k', v) :: rest => if String.eqb k k' then Some v else lookup k rest
  end.

(** The request a client sends for a call. *)
Definition grpcRequest (c : grpc.Call) : Request :=
  {| Method := "POST"; Path := grpc.fullMethod c; ProtoMajor := 2;
     Hdr := {[ "Content-Type" := [grpcContentType] ]};
     Body := grpc.message c |}.

(** The response the server writes for an outcome. *)
Definition writeResult (w : ResponseWriter) (res : grpc.Result)
  : ResponseWriter :=
  match res with
  | grpc.Reply msg =>
      SetTrailer (Write (WriteHeader w StatusOK) msg) "Grpc-Status" "0"
  | grpc.Status c msg =>
      SetTrailer (SetTrailer (WriteHeader w StatusOK)
                             "Grpc-Status" (codeNumber c))
                 "Grpc-Message" msg
  end.

(** The outcome a client reads off a response; one without a status
    trailer did not come from a gRPC server. *)
Definition readResult (w : ResponseWriter) : grpc.Result :=
  match lookup "Grpc-Status" (trailer w) with
  | Some n =>
      if String.eqb n "0" then grpc.Reply (body w)
      else grpc.Status (default grpc.Unknown (codeOfNumber n))
                       (default "" (lookup "Grpc-Message" (trailer w)))
  | None => grpc.Status grpc.Unavailable "transport is closing"
  end.

(** The content types the server transport accepts. *)
Definition validContentType (t : string) : bool :=
  strings.HasPrefix t grpcContentType
  && match strings.byteAt t (strings.len grpcContentType) with
     | Some c => Ascii.eqb c "+" || Ascii.eqb c ";"
     | None => true
     end.

End wire.

(** The parts of the system behind the wiring of this file. *)
Record Collaborators : Type := mkCollaborators {
  (** what each server-side stage does around a call *)
  stageBehaviour : grpc.ServerStage -> grpc.Behaviour;
  (** the call context the gRPC server derives from a request *)
  incomingCtx : Request -> grpc.Ctx;
  (** the methods of the order service, and their implementation over
      the registered store *)
  knownMethod : string -> bool;
  orderService : list (option orderStore) -> grpc.Ctx -> grpc.Call -> grpc.Result;
  (** [promhttp.Handler()] *)
  metricsHandler : Handler;
  (** what a client connection dialed to an endpoint gets back for a
      request it sends there *)
  transport : string -> Request -> ResponseWriter;
  (** the gateway's table from verb and path to RPC method, and its
      JSON codec *)
  gwMethod : string -> string -> option string;
  gwDecodeBody : string -> option string;
  gwEncodeReply : string -> string
}.

Section Serving.

Context (E : Collaborators).

(** One unary call on the gRPC server: the configured chain around the
    service method. *)
Definition serviceHandler (g : grpc.Server (option orderStore))
  : grpc.UnaryHandler :=
  fun ctx c =>
    grpc.bind (grpc.tell (grpc.Invoke ctx c))
              (fun _ => grpc.ret (orderService E (grpc.services g) ctx c)).

(** The interceptor that [ChainUnaryServer] builds from a list of
    stages, and the one the server was given. *)
Definition chainOf (l : list grpc.ServerStage) : grpc.UnaryServerInterceptor :=
  grpc.ChainUnaryServer
    (List.map (fun st => grpc.runStage st (stageBehaviour E st)) l).

Definition unaryInt (g : grpc.Server (option orderStore))
  : grpc.UnaryServerInterceptor :=
  chainOf (grpc.chain g).

(** A stage proceeds on a call when it never ends the call itself. *)
Definition proceeds (st : grpc.ServerStage) (c : grpc.Call) : Prop :=
  forall ctx, exists ctx', grpc.before (stageBehaviour E st) ctx c = inl ctx'.

Definition handleUnary (g : grpc.Server (option orderStore))
           (ctx : grpc.Ctx) (c : grpc.Call) : grpc.M grpc.Result :=
  if knownMethod E (grpc.fullMethod c)
  then unaryInt g ctx c (serviceHandler g)
  else grpc.ret (grpc.Status grpc.Unimplemented
                             ("unknown method " ++ grpc.fullMethod c)).

(** [ServeHTTP] of the gRPC server: the transport refuses what is not an
    HTTP/2 POST with a gRPC content type, then the call is handled. *)
Definition grpcServeHTTP (g : grpc.Server (option orderStore)) : Handler :=
  fun w r =>
    if negb (ProtoMajor r =? 2)
    then Error w "gRPC requires HTTP/2" StatusInternalServerError
    else if negb (String.eqb (Method r) "POST")
    then Error w "invalid gRPC request method" StatusInternalServerError
    else if negb (wire.validContentType (Get (Hdr r) "Content-Type"))
    then Error w "invalid gRPC request content-type" StatusInternalServerError
    else
      let c := {| grpc.fullMethod := Path r; grpc.message := Body r |} in
      wire.writeResult w (fst (handleUnary g (incomingCtx E r) c)).

(** A unary call made by a gRPC client over its connection. *)
Definition clientInvoke (endpoint : string) (c : grpc.Call) : grpc.Result :=
  wire.readResult (transport E endpoint (wire.grpcRequest c)).

(** Modelled from the spec: the handlers that
    [order.RegisterOrderServiceHandlerFromEndpoint] registers on the
    gateway mux are generated code that is not part of the sources at
    hand. Per the spec each verb and path maps to one RPC method, an
    unknown path is [NotFound] (404), a malformed body is
    [InvalidArgument] (400), the call goes out as a native RPC to the
    endpoint, and an RPC error becomes the nearest HTTP status. *)
Definition HTTPStatusFromCode (c : grpc.Code) : Z :=
  match c with
  | grpc.Unknown => 500
  | grpc.InvalidArgument => 400
  | grpc.Unauthenticated => 401
  | grpc.NotFound => 404
  | grpc.Internal => 500
  | grpc.Unimplemented => 501
  | grpc.Unavailable => 503
  end.

Definition gatewayError (w : ResponseWriter) (c : grpc.Code) (msg : string)
  : ResponseWriter :=
  Write (WriteHeader w (HTTPStatusFromCode c))
        ("{code:" ++ wire.codeNumber c ++ ",message:" ++ msg ++ "}").

Definition gatewayCall (r : Request) : grpc.Call + grpc.Result :=
  match gwMethod E (Method r) (Path r) with
  | None => inr (grpc.Status grpc.NotFound "Not Found")
  | Some m =>
      match gwDecodeBody E (Body r) with
      | None => inr (grpc.Status grpc.InvalidArgument "malformed body")
      | Some msg => inl {| grpc.fullMethod := m; grpc.message := msg |}
      end
  end.

Definition gatewayRender (w : ResponseWriter) (res : grpc.Result)
  : ResponseWriter :=
  match res with
  | grpc.Reply out => Write (WriteHeader w StatusOK) (gwEncodeReply E out)
  | grpc.Status c msg => gatewayError w c msg
  end.

Definition gatewayServeHTTP (gw : GatewayMux) : Handler :=
  fun w r =>
    match gatewayCall r with
    | inl c => gatewayRender w (clientInvoke (upstream gw) c)
    | inr res => gatewayRender w res
    end.

Definition targetHandler (t : MuxTarget) : Handler :=
  match t with
  | Metrics => metricsHandler E
  | Healthz => healthz
  | Gateway gw => gatewayServeHTTP gw
  end.

Definition handlersOf (m : ServeMux MuxTarget) : ServeMux Handler :=
  List.map (fun '(p, t) => (p, targetHandler t)) m.

(** The handler of the [http.Server] built in [Run]: the closure reads
    [s.grpc] and the mux it captured. The [h2c.Server] around it only
    brings cleartext HTTP/2 connections up and passes every request on. *)
Definition ServeHTTP (s : Server) : Handler :=
  rootHandler
    (fun w r => match grpc s with
                | Some g => grpcServeHTTP g w r
                | None => w
                end)
    (fun w r => match server s with
                | Some h => muxServeHTTP (handlersOf (routes h)) w r
                | None => w
                end).

End Serving.

(** ** Views of the functions above, used to state their properties *)

(** [sub] occurs somewhere in [s]. *)
Definition occursIn (sub s : string) : Prop :=
  exists pre post, s = pre ++ sub ++ post.

(** The option loop of [New] on its own: the server after the options,
    or the first error with the server as the failing option left it. *)
Fixpoint optionsResult (options : list OptionsFunc) (s : Server)
  : Server + (error * Server) :=
  match options with
  | [] => inl s
  | f :: rest =>
      match f s with
      | (s', Some e) => inr (e, s')
      | (s', None) => optionsResult rest s'
      end
  end.

(** The server [New] returns once the dial has succeeded, and the calls
    it has made by then. *)
Definition constructed (s : Server) : Server :=
  let c := {| cc := {| grpc.target := endpoint s; grpc.dopts := itemDialOptions |} |} in
  setStore (Some (LoadSampleData (newOrderStore c))) (setItem c s).

Definition constructionEvents (s : Server) : list Event :=
  [ EvDialContext (endpoint s) itemDialOptions;
    EvNewItemServiceClient; EvNewOrderStore; EvLoadSampleData ].

(** The gateway mux and the server state that [Run] installs for a
    listen address whose port is [port]. *)
Definition gatewayFor (port : string) : GatewayMux :=
  {| upstream := net.JoinHostPort "127.0.0.1" port; gwOpts := gatewayDialOptions |}.

Definition grpcFor (s : Server) : grpc.Server (option orderStore) :=
  {| grpc.chain := serverInterceptors; grpc.services := [store s] |}.

Definition httpFor (port : string) (open : bool) : HttpServer :=
  {| routes := newMux (gatewayFor port); listening := open;
     inShutdown := false; active := [] |}.

Definition installed (s : Server) (port : string) (open : bool) : Server :=
  setServer (httpFor port open) (setGrpc (grpcFor s) s).

Definition setupEvents (s : Server) : list Event :=
  [ EvNewDefaultLogger; EvListen "tcp" (address s); EvReplaceGrpcLogger;
    EvEnableHandlingTimeHistogram; EvNewServer serverInterceptors ].

Definition servingEvents (s : Server) (port : string) : list Event :=
  (setupEvents s ++
   [ EvRegisterGateway (net.JoinHostPort "127.0.0.1" port) gatewayDialOptions;
     EvRegisterOrderServiceServer; EvServe ])%list.

(** The result of [Serve] as [Run] hands it back. *)
Definition serveError (err : option error) : option error :=
  match err with
  | Some e => if bool_decide (e <> ErrServerClosed)
              then Some (Wrap e "failed to start http server") else None
  | None => None
  end.

(** The delays of the sleeper stages in a chain. *)
Definition sleeperDelays (l : list grpc.ServerStage) : list time.Duration :=
  omap (fun st => match st with
                  | grpc.UtilSleeper d => Some d
                  | _ => None
                  end) l.

(** The sleeper delays of the gRPC server that [Run] builds on the
    server [New] returns for the given options. *)
Definition configuredSleep (w : World) (options : list OptionsFunc)
  : option (list time.Duration) :=
  match New w options with
  | (Returned (Some s, None), _) =>
      (fun g => sleeperDelays (grpc.chain g)) <$> grpc (self (snd (Run w s)))
  | _ => None
  end.

(** What [healthz] leaves on a fresh writer. *)
Definition healthzResponse : ResponseWriter :=
  {| status := Some 200; header := []; body := "OK" ++ newline; trailer := [] |}.

(** ** Sample inputs *)

Module sample.

(** A world in which every collaborator succeeds and [Serve] serves. *)
Definition quiet : World :=
{| dialErr := fun _ => None; loggerErr := None; listenErr := fun _ => None;
   gatewayErr := fun _ => None; serveRet := Serving |}.

(** The same, but the listen address is taken. *)
Definition portTaken : World :=
{| dialErr := fun _ => None; loggerErr := None;
   listenErr := fun _ => Some (ErrOther "bind: address already in use");
   gatewayErr := fun _ => None; serveRet := Serving |}.

(** The server of [New()] with no options. *)
Definition built : Server := constructed defaultServer.

(** An option that fails. *)
Definition refuse : OptionsFunc := fun s => (s, Some (ErrOther "refused")).


Definition grpcPost : Request :=
{| Method := "POST"; Path := "/order.OrderService/GetOrder"; ProtoMajor := 2;
   Hdr := {[ "Content-Type" := ["application/grpc+proto"] ]}; Body := "" |}.

Definition healthzAsGrpc : Request :=
{| Method := "GET"; Path := "/healthz"; ProtoMajor := 2;
   Hdr := {[ "Content-Type" := ["application/grpc"] ]}; Body := "" |}.

Definition healthzGet : Request :=
{| Method := "GET"; Path := "/healthz"; ProtoMajor := 1;
   Hdr := ∅; Body := "" |}.


(** Collaborators: the validator turns away an empty message, the other
  stages proceed, the service echoes, the gateway knows one route and
  nothing answers on the network. *)
Definition behaviour (st : grpc.ServerStage) : grpc.Behaviour :=
match st with
| grpc.Validator =>
    {| grpc.before := fun ctx c =>
         if String.eqb (grpc.message c) ""
         then inr (grpc.Status grpc.InvalidArgument "empty request")
         else inl ctx;
       grpc.after := fun _ _ r => r |}
| _ => {| grpc.before := fun ctx _ => inl ctx; grpc.after := fun _ _ r => r |}
end.

Definition collaborators : Collaborators :=
{| stageBehaviour := behaviour;
   incomingCtx := fun _ => [];
   knownMethod := fun m => String.eqb m "/order.OrderService/GetOrder";
   orderService := fun _ _ c => grpc.Reply (grpc.message c);
   metricsHandler := fun w _ => Write w "# no metrics";
   transport := fun _ _ => freshWriter;
   gwMethod := fun verb path =>
     if String.eqb verb "GET" && strings.HasPrefix path "/v1/orders/"
     then Some "/order.OrderService/GetOrder" else None;
   gwDecodeBody := fun b => Some b;
   gwEncodeReply := fun m => m |}.

End sample.

(** ** More views: option lists, error shapes, events of a call *)

(** The two options the package offers, as data. *)
Inductive Setting : Type :=
| Address (a : string)
| Endpoint (a : string).

Definition optionOf (x : Setting) : OptionsFunc :=
  match x with
  | Address a => SetAddress a
  | Endpoint a => SetEndpoint a
  end.

(** The address and the endpoint a list of settings leaves, over the
    values [d] held before. *)
Fixpoint lastAddress (l : list Setting) (d : string) : string :=
  match l with
  | [] => d
  | Address a :: rest => lastAddress rest a
  | Endpoint _ :: rest => lastAddress rest d
  end.

Fixpoint lastEndpoint (l : list Setting) (d : string) : string :=
  match l with
  | [] => d
  | Endpoint a :: rest => lastEndpoint rest a
  | Address _ :: rest => lastEndpoint rest d
  end.

(** The messages [Run] wraps its errors in. *)
Definition runMessages (s : Server) : list string :=
  [ "failed to create logger";
    "failed to listen on " ++ address s;
    "invalid address " ++ address s;
    "failed to register grpc gateway";
    "failed to start http server" ].

(** Whether [Run] can get as far as [Serve] on a server in a world. *)
Definition setupSucceeds (w : World) (s : Server) : Prop :=
  loggerErr w = None /\ listenErr w (address s) = None
  /\ exists host port,
       net.SplitHostPort (address s) = inl (host, port)
       /\ gatewayErr w (net.JoinHostPort "127.0.0.1" port) = None.

(** What the routing table of [Run] says about a path. *)
Definition routeOf (gw : GatewayMux) (path : string) : option MuxTarget :=
  if String.eqb path "/metrics" then Some Metrics
  else if String.eqb path "/healthz" then Some Healthz
  else if strings.HasPrefix path "/" then Some (Gateway gw)
  else None.

(** ** Listeners and the loopback address *)








(** ** More sample inputs *)

Module sample2.

(** A world in which the item endpoint cannot be dialed. *)
Definition noDial : World :=
  {| dialErr := fun _ => Some (ErrOther "grpc: no transport security set");
     loggerErr := None; listenErr := fun _ => None;
     gatewayErr := fun _ => None; serveRet := Serving |}.

(** A world in which the gateway cannot be registered. *)
Definition noGateway : World :=
  {| dialErr := fun _ => None; loggerErr := None; listenErr := fun _ => None;
     gatewayErr := fun _ => Some (ErrOther "context canceled");
     serveRet := Serving |}.

(** A world in which [Serve] has ended after a graceful shutdown. *)
Definition stopped : World :=
  {| dialErr := fun _ => None; loggerErr := None; listenErr := fun _ => None;
     gatewayErr := fun _ => None;
     serveRet := ServeReturned (Some ErrServerClosed) |}.





Definition settings : list Setting :=
  [ Address ":9000"; Endpoint "items:9090"; Address "[::1]:7000" ].

(** A call with an empty message, which the sample validator turns away. *)
Definition emptyCall : grpc.Call :=
  {| grpc.fullMethod := "/order.OrderService/GetOrder"; grpc.message := "" |}.

Definition metricsGet : Request :=
  {| Method := "GET"; Path := "/metrics"; ProtoMajor := 1;
     Hdr := ∅; Body := "" |}.

Definition twoTypes : Request :=
  {| Method := "POST"; Path := "/order.OrderService/GetOrder"; ProtoMajor := 2;
     Hdr := {[ "Content-Type" := ["application/json"; "application/grpc"] ]};
     Body := "" |}.

End sample2.

(** * Properties *)

(** ** Strings *)

Section StringFacts.

Lemma HasPrefix_app (p post : string) : strings.HasPrefix (p ++ post) p = true.
Proof.
  induction p as [|c p IH]; simpl; [reflexivity|].
  rewrite Ascii.eqb_refl. exact IH.
Qed.

Lemma HasPrefix_inv (s p : string) :
  strings.HasPrefix s p = true -> exists post, s = p ++ post.
Proof.
  revert s. induction p as [|c p IH]; intros s H.
  - exists s. reflexivity.
  - destruct s as [|d t]; simpl in H; [discriminate|].
    destruct (Ascii.eqb c d) eqn:Hcd; [|discriminate].
    apply Ascii.eqb_eq in Hcd. subst d.
    destruct (IH t H) as [post ->]. exists post. reflexivity.
Qed.

Lemma HasPrefix_spec (s p : string) :
  strings.HasPrefix s p = true <-> exists post, s = p ++ post.
Proof.
  split; [apply HasPrefix_inv|]. intros [post ->]. apply HasPrefix_app.
Qed.

Lemma Index_lower (s sub : string) : -1 <= strings.Index s sub.
Proof.
  induction s as [|c t IH]; simpl.
  - destruct sub; simpl; lia.
  - destruct (strings.HasPrefix (String c t) sub); [lia|].
    destruct (strings.Index t sub <? 0) eqn:Hlt; lia.
Qed.

Lemma Index_found (s sub : string) :
  0 <= strings.Index s sub -> exists pre post, s = pre ++ sub ++ post.
Proof.
  induction s as [|c t IH]; simpl.
  - destruct sub as [|d sub']; simpl; [|lia].
    intros _. exists "", "". reflexivity.
  - destruct (strings.HasPrefix (String c t) sub) eqn:Hp.
    + intros _. apply HasPrefix_inv in Hp as [post Hp].
      exists "", post. exact Hp.
    + destruct (strings.Index t sub <? 0) eqn:Hlt; [lia|].
      intros _. apply Z.ltb_ge in Hlt.
      destruct (IH Hlt) as (pre & post & ->).
      exists (String c pre), post. reflexivity.
Qed.

Lemma Index_prefix (s sub : string) :
  strings.HasPrefix s sub = true -> strings.Index s sub = 0.
Proof. intros H. destruct s; simpl; rewrite H; reflexivity. Qed.

Lemma Index_occurs (pre sub post : string) :
  0 <= strings.Index (pre ++ sub ++ post) sub.
Proof.
  induction pre as [|c pre IH].
  - change ("" ++ sub ++ post) with (sub ++ post).
    rewrite Index_prefix by apply HasPrefix_app. lia.
  - change (String c pre ++ sub ++ post) with (String c (pre ++ sub ++ post)).
    cbn [strings.Index].
    destruct (strings.HasPrefix (String c (pre ++ sub ++ post)) sub); [lia|].
    destruct (strings.Index (pre ++ sub ++ post) sub <? 0) eqn:Hlt; [|lia].
    apply Z.ltb_lt in Hlt. lia.
Qed.

(** [strings.Contains] holds exactly of the strings that have the
    substring somewhere. *)
Lemma Contains_spec (s sub : string) :
  strings.Contains s sub = true <-> exists pre post, s = pre ++ sub ++ post.
Proof.
  unfold strings.Contains. rewrite Z.leb_le. split.
  - apply Index_found.
  - intros (pre & post & ->). apply Index_occurs.
Qed.

End StringFacts.

(** ** The demultiplexer *)

Lemma isGrpcRequest_spec (r : Request) :
  isGrpcRequest r = true <->
  ProtoMajor r = 2 /\ occursIn "application/grpc" (Get (Hdr r) "Content-Type").
Proof.
  unfold isGrpcRequest, occursIn, grpcContentType.
  rewrite andb_true_iff, Z.eqb_eq, Contains_spec. reflexivity.
Qed.

Lemma dispatch_grpc (r : Request) :
  dispatch r = ToGrpc <-> isGrpcRequest r = true.
Proof.
  unfold dispatch, rootHandler. destruct (isGrpcRequest r); split; congruence.
Qed.

Lemma dispatch_mux (r : Request) :
  dispatch r = ToMux <-> isGrpcRequest r = false.
Proof.
  unfold dispatch, rootHandler. destruct (isGrpcRequest r); split; congruence.
Qed.

Lemma serveConn_lookup (pre : list Request) :
  forall (seen : nat) (r : Request) (post : list Request),
    serveConn seen (pre ++ r :: post) !! length pre
    = Some ((seen + length pre)%nat, dispatch r).
Proof.
  induction pre as [|q pre IH]; intros seen r post; simpl.
  - f_equal. f_equal. lia.
  - rewrite IH. f_equal. f_equal. lia.
Qed.

(** C1. A request goes to the gRPC server exactly when its protocol
    major version is 2 and the first Content-Type value has
    "application/grpc" in it; every other request goes to the HTTP mux.
    The handler of the running server follows that choice, and the
    choice made for a request on a connection is the same whatever was
    served before or comes after it. *)
Theorem C1_dispatch_by_protocol_and_content_type :
  forall r : Request,
    (dispatch r = ToGrpc <->
       ProtoMajor r = 2
       /\ occursIn "application/grpc" (Get (Hdr r) "Content-Type"))
    /\ (dispatch r = ToMux <->
          ~ (ProtoMajor r = 2
             /\ occursIn "application/grpc" (Get (Hdr r) "Content-Type")))
    /\ (forall (E : Collaborators) (s : Server) (g : grpc.Server (option orderStore))
               (h : HttpServer) (w : ResponseWriter),
          grpc s = Some g -> server s = Some h ->
          ServeHTTP E s w r
          = match dispatch r with
            | ToGrpc => grpcServeHTTP E g w r
            | ToMux =>
                muxServeHTTP (handlersOf E (routes h)) w r
            end)
    /\ (forall (seen seen' : nat) (pre pre' post post' : list Request),
          snd <$> serveConn seen (pre ++ r :: post) !! length pre
          = snd <$> serveConn seen' (pre' ++ r :: post') !! length pre').
Proof.
  intros r. split; [|split; [|split]].
  - rewrite dispatch_grpc. apply isGrpcRequest_spec.
  - rewrite dispatch_mux, <- isGrpcRequest_spec.
    destruct (isGrpcRequest r); split; congruence.
  - intros E s g h w Hg Hh. unfold ServeHTTP, dispatch, rootHandler.
    rewrite Hg, Hh. destruct (isGrpcRequest r); reflexivity.
  - intros. rewrite !serveConn_lookup. reflexivity.
Qed.

Lemma C1_witness : dispatch sample.grpcPost = ToGrpc.
Proof.
  apply (C1_dispatch_by_protocol_and_content_type sample.grpcPost).
  split; [reflexivity|]. exists "", "+proto". reflexivity.
Defined.

(** ** [Run] step by step *)

Lemma Run_logger_fails (w : World) (s : Server) (e : error) :
  loggerErr w = Some e ->
  Run w s = (Returned (Some (Wrap e "failed to create logger")),
             {| self := s; events := [EvNewDefaultLogger] |}).
Proof. intros H. unfold Run, exec, RunBody, andThen, failWith; simpl. rewrite H. reflexivity. Qed.

Lemma Run_listen_fails (w : World) (s : Server) (e : error) :
  loggerErr w = None -> listenErr w (address s) = Some e ->
  Run w s = (Returned (Some (Wrap e ("failed to listen on " ++ address s))),
             {| self := s; events := [EvNewDefaultLogger; EvListen "tcp" (address s)] |}).
Proof.
  intros H1 H2. unfold Run, exec, RunBody, andThen, failWith; simpl.
  rewrite H1; simpl. rewrite H2. reflexivity.
Qed.

Lemma Run_address_invalid (w : World) (s : Server) (e : error) :
  loggerErr w = None -> listenErr w (address s) = None ->
  net.SplitHostPort (address s) = inr e ->
  Run w s = (Returned (Some (Wrap e ("invalid address " ++ address s))),
             {| self := setGrpc {| grpc.chain := serverInterceptors; grpc.services := [] |} s;
                events := setupEvents s |}).
Proof.
  intros H1 H2 H3. unfold Run, exec, RunBody, andThen, failWith; simpl.
  rewrite H1; simpl. rewrite H2; simpl. rewrite H3. reflexivity.
Qed.

Lemma Run_gateway_fails (w : World) (s : Server) (host port : string) (e : error) :
  loggerErr w = None -> listenErr w (address s) = None ->
  net.SplitHostPort (address s) = inl (host, port) ->
  gatewayErr w (net.JoinHostPort "127.0.0.1" port) = Some e ->
  Run w s = (Returned (Some (Wrap e "failed to register grpc gateway")),
             {| self := setGrpc {| grpc.chain := serverInterceptors; grpc.services := [] |} s;
                events := (setupEvents s ++
                  [EvRegisterGateway (net.JoinHostPort "127.0.0.1" port) gatewayDialOptions])%list |}).
Proof.
  intros H1 H2 H3 H4. unfold Run, exec, RunBody, andThen, failWith; simpl.
  rewrite H1; simpl. rewrite H2; simpl. rewrite H3; simpl. rewrite H4. reflexivity.
Qed.

Lemma Run_serving (w : World) (s : Server) (host port : string) :
  loggerErr w = None -> listenErr w (address s) = None ->
  net.SplitHostPort (address s) = inl (host, port) ->
  gatewayErr w (net.JoinHostPort "127.0.0.1" port) = None ->
  Run w s =
    match serveRet w with
    | Serving =>
        (Blocking, {| self := installed s port true; events := servingEvents s port |})
    | ServeReturned err =>
        (Returned (serveError err),
         {| self := installed s port false; events := servingEvents s port |})
    end.
Proof.
  intros H1 H2 H3 H4. unfold Run, exec, RunBody, andThen, failWith; simpl.
  rewrite H1; simpl. rewrite H2; simpl. rewrite H3; simpl. rewrite H4; simpl.
  unfold Serve, andThen; simpl.
  destruct (serveRet w) as [|[e|]]; simpl; try reflexivity.
  unfold serveError. destruct (bool_decide (e <> ErrServerClosed)); reflexivity.
Qed.

(** [Run] blocks only in [Serve], after the whole setup has succeeded. *)
Lemma Run_blocking_inv (w : World) (s : Server) (st : St) :
  Run w s = (Blocking, st) ->
  exists host port,
    loggerErr w = None /\ listenErr w (address s) = None
    /\ net.SplitHostPort (address s) = inl (host, port)
    /\ gatewayErr w (net.JoinHostPort "127.0.0.1" port) = None
    /\ serveRet w = Serving
    /\ st = {| self := installed s port true; events := servingEvents s port |}.
Proof.
  intros H.
  destruct (loggerErr w) as [e|] eqn:H1.
  { rewrite (Run_logger_fails _ _ _ H1) in H. discriminate. }
  destruct (listenErr w (address s)) as [e|] eqn:H2.
  { rewrite (Run_listen_fails _ _ _ H1 H2) in H. discriminate. }
  destruct (net.SplitHostPort (address s)) as [[host port]|e] eqn:H3.
  2:{ rewrite (Run_address_invalid _ _ _ H1 H2 H3) in H. discriminate. }
  destruct (gatewayErr w (net.JoinHostPort "127.0.0.1" port)) as [e|] eqn:H4.
  { rewrite (Run_gateway_fails _ _ _ _ _ H1 H2 H3 H4) in H. discriminate. }
  rewrite (Run_serving _ _ _ _ H1 H2 H3 H4) in H.
  destruct (serveRet w) eqn:H5; [|discriminate].
  exists host, port. repeat split; try assumption. congruence.
Qed.

(** ** The server-side interceptor chain *)

Section ChainFacts.

Context (E : Collaborators).



(** The log of one stage: it enters, runs the rest unless it ends the
    call itself, and leaves. *)
Lemma runStage_log (st : grpc.ServerStage) (b : grpc.Behaviour)
      (ctx : grpc.Ctx) (c : grpc.Call) (h : grpc.UnaryHandler) :
  snd (grpc.runStage st b ctx c h)
  = (grpc.Enter st ::
     match grpc.before b ctx c with
     | inl ctx' => snd (h ctx' c)
     | inr _ => []
     end ++ [grpc.Leave st])%list.
Proof.
  unfold grpc.runStage, grpc.bind, grpc.tell, grpc.ret.
  destruct (grpc.before b ctx c) as [ctx'|r]; simpl.
  - destruct (h ctx' c) as [r l]; simpl. rewrite app_nil_r. reflexivity.
  - reflexivity.
Qed.

Lemma serviceHandler_log (g : grpc.Server (option orderStore))
      (ctx : grpc.Ctx) (c : grpc.Call) :
  snd (serviceHandler E g ctx c) = [grpc.Invoke ctx c].
Proof. reflexivity. Qed.




End ChainFacts.



(** ** [New] *)

Lemma applyOptions_spec (options : list OptionsFunc) :
  forall (s : Server) (ev : list Event),
    applyOptions options {| self := s; events := ev |}
    = match optionsResult options s with
      | inl s' => (Next tt, {| self := s'; events := ev |})
      | inr (e, s') =>
          (Return (None, Some (Wrap e "options function failed")),
           {| self := s'; events := ev |})
      end.
Proof.
  induction options as [|f rest IH]; intros s ev; simpl; [reflexivity|].
  unfold andThen; simpl. destruct (f s) as [s' [e|]]; simpl; [reflexivity|].
  apply IH.
Qed.

Lemma New_spec (w : World) (options : list OptionsFunc) :
  New w options
  = match optionsResult options defaultServer with
    | inr (e, s') =>
        (Returned (None, Some (Wrap e "options function failed")),
         {| self := s'; events := [] |})
    | inl s =>
        match dialErr w (endpoint s) with
        | Some e =>
            (Returned (None, Some (Wrap e "could not create grpc client")),
             {| self := s; events := [EvDialContext (endpoint s) itemDialOptions] |})
        | None =>
            (Returned (Some (constructed s), None),
             {| self := constructed s; events := constructionEvents s |})
        end
    end.
Proof.
  unfold New, exec, NewBody, andThen. rewrite applyOptions_spec.
  destruct (optionsResult options defaultServer) as [s|[e s']]; [|reflexivity].
  simpl. unfold DialContext, andThen; simpl.
  destruct (dialErr w (endpoint s)); reflexivity.
Qed.

Lemma optionsResult_app (pre post : list OptionsFunc) (s : Server) :
  optionsResult (pre ++ post) s
  = match optionsResult pre s with
    | inl s1 => optionsResult post s1
    | inr failure => inr failure
    end.
Proof.
  revert s. induction pre as [|f pre IH]; intros s; simpl; [reflexivity|].
  destruct (f s) as [s' [e|]]; [reflexivity|]. apply IH.
Qed.

Lemma optionsResult_endpoint (options : list OptionsFunc) :
  (forall f s, f ∈ options -> endpoint (fst (f s)) = endpoint s) ->
  forall s s', optionsResult options s = inl s' -> endpoint s' = endpoint s.
Proof.
  induction options as [|f rest IH]; intros Hkeep s s' H; simpl in H.
  - congruence.
  - specialize (Hkeep f s (list_elem_of_here _ _)) as Hf.
    destruct (f s) as [s1 [e|]]; [discriminate|]. simpl in Hf.
    rewrite <- Hf. apply IH; [|exact H].
    intros f' s0 Hin. apply Hkeep. apply list_elem_of_further. exact Hin.
Qed.

(** C9. [New] dials the item connection at the endpoint the server
    holds after its options: 127.0.0.1:9090 when there is no option or
    none that changes it, the address given to a final [SetEndpoint]
    otherwise. The unary interceptors of the connection are the pair
    identity propagation, client metrics, and when the dial succeeds the
    item client of the server returned sits on that connection. *)
Theorem C9_item_connection_dialed_at_endpoint :
  forall (w : World) (options : list OptionsFunc) (s : Server),
    optionsResult options defaultServer = inl s ->
    (exists rest,
       events (snd (New w options))
       = EvDialContext (endpoint s) itemDialOptions :: rest)
    /\ grpc.unaryInterceptors itemDialOptions
       = [grpc.UtilClient; grpc.PrometheusClient]
    /\ (options = [] -> endpoint s = "127.0.0.1:9090")
    /\ ((forall f s0, f ∈ options -> endpoint (fst (f s0)) = endpoint s0) ->
        endpoint s = "127.0.0.1:9090")
    /\ (forall pre a, options = (pre ++ [SetEndpoint a])%list -> endpoint s = a)
    /\ (dialErr w (endpoint s) = None ->
        exists s', fst (New w options) = Returned (Some s', None)
                   /\ endpoint s' = endpoint s
                   /\ item s' = Some {| cc := {| grpc.target := endpoint s;
                                                 grpc.dopts := itemDialOptions |} |}).
Proof.
  intros w options s Hopt. rewrite New_spec, Hopt.
  split; [|split; [reflexivity|split; [|split; [|split]]]].
  - destruct (dialErr w (endpoint s)); eexists; reflexivity.
  - intros ->. simpl in Hopt. injection Hopt as <-. reflexivity.
  - intros Hkeep. apply (optionsResult_endpoint options Hkeep _ _ Hopt).
  - intros pre a ->. rewrite optionsResult_app in Hopt.
    destruct (optionsResult pre defaultServer) as [s2|]; [|discriminate].
    simpl in Hopt. injection Hopt as <-. reflexivity.
  - intros ->. eexists. split; [reflexivity|]. split; reflexivity.
Qed.

(** C10. When an option fails, [New] returns nil and the wrapped error,
    and has not dialed, built a client or a store, or loaded sample
    data; the options after the failing one are not run. *)
Theorem C10_option_failure_has_no_effects :
  forall (w : World) (pre post : list OptionsFunc) (f : OptionsFunc)
         (s1 : Server) (e : error),
    optionsResult pre defaultServer = inl s1 ->
    snd (f s1) = Some e ->
    fst (New w (pre ++ f :: post))
    = Returned (None, Some (Wrap e "options function failed"))
    /\ events (snd (New w (pre ++ f :: post))) = []
    /\ New w (pre ++ f :: post) = New w (pre ++ [f]).
Proof.
  intros w pre post f s1 e Hpre Hf.
  rewrite !New_spec, !optionsResult_app, Hpre. simpl.
  destruct (f s1) as [s' o]. simpl in Hf. subst o. auto.
Qed.

(** C8. Every successful [New] loads the sample data, exactly once, and
    no option can prevent it. *)
Theorem C8_New_always_loads_sample_data :
  forall (w : World) (options : list OptionsFunc) (s : Server) (st : St),
    New w options = (Returned (Some s, None), st) ->
    length (filter (fun ev => ev = EvLoadSampleData) (events st)) = 1%nat
    /\ sampleLoads <$> store s = Some 1%nat.
Proof.
  intros w options s st H. rewrite New_spec in H.
  destruct (optionsResult options defaultServer) as [s1|[e s']]; [|discriminate].
  destruct (dialErr w (endpoint s1)); [discriminate|].
  injection H as <- <-. split; reflexivity.
Qed.

(** ** [Run]'s result *)

(** C5. [Run] returns an error when the listener cannot be bound (the
    bind error wrapped, once the logger exists). Once the setup has
    succeeded it has not returned for as long as [Serve] is serving, and
    it blocks nowhere else; when [Serve] ends with [ErrServerClosed] it
    returns nil, and any other error of [Serve] comes back wrapped. *)
Theorem C5_Run_errors_and_blocking :
  forall (w : World) (s : Server),
    (forall e, listenErr w (address s) = Some e ->
       (exists err, fst (Run w s) = Returned (Some err))
       /\ (loggerErr w = None ->
           fst (Run w s)
           = Returned (Some (Wrap e ("failed to listen on " ++ address s)))))
    /\ (fst (Run w s) = Blocking -> serveRet w = Serving)
    /\ (forall host port,
          loggerErr w = None -> listenErr w (address s) = None ->
          net.SplitHostPort (address s) = inl (host, port) ->
          gatewayErr w (net.JoinHostPort "127.0.0.1" port) = None ->
          (serveRet w = Serving -> fst (Run w s) = Blocking)
          /\ (serveRet w = ServeReturned (Some ErrServerClosed) ->
              fst (Run w s) = Returned None)
          /\ (forall e, e <> ErrServerClosed ->
                serveRet w = ServeReturned (Some e) ->
                fst (Run w s)
                = Returned (Some (Wrap e "failed to start http server")))).
Proof.
  intros w s. split; [|split].
  - intros e Hl. split.
    + destruct (loggerErr w) as [e0|] eqn:Hlog.
      * rewrite (Run_logger_fails _ _ _ Hlog). eexists; reflexivity.
      * rewrite (Run_listen_fails _ _ _ Hlog Hl). eexists; reflexivity.
    + intros Hlog. rewrite (Run_listen_fails _ _ _ Hlog Hl). reflexivity.
  - intros H. destruct (Run w s) as [o st] eqn:HR. simpl in H. subst o.
    apply Run_blocking_inv in HR as (? & ? & ? & ? & ? & ? & ? & ?). assumption.
  - intros host port H1 H2 H3 H4. rewrite (Run_serving _ _ _ _ H1 H2 H3 H4).
    split; [|split].
    + intros ->. reflexivity.
    + intros ->. reflexivity.
    + intros e Hne ->. simpl. rewrite bool_decide_true by exact Hne. reflexivity.
Qed.

(** ** [Stop] *)







(** ** The HTTP mux *)

Section MuxFacts.

Context (E : Collaborators).

Lemma mux_healthz (gw : GatewayMux) :
  muxHandler (handlersOf E (newMux gw)) "/healthz" = Some healthz.
Proof. reflexivity. Qed.

Lemma mux_metrics (gw : GatewayMux) :
  muxHandler (handlersOf E (newMux gw)) "/metrics" = Some (metricsHandler E).
Proof. reflexivity. Qed.


(** The mux redirects only requests whose path is not clean. *)
Lemma muxServeHTTP_clean (m : ServeMux Handler) (w : ResponseWriter) (r : Request) :
  Method r = "CONNECT" \/ cleanPath (Path r) = Path r ->
  muxServeHTTP m w r
  = match muxHandler m (Path r) with
    | Some h => h w r
    | None => NotFound w r
    end.
Proof.
  intros [Hc|Hc]; unfold muxServeHTTP; rewrite Hc.
  - reflexivity.
  - rewrite String.eqb_refl, andb_false_r. reflexivity.
Qed.

Lemma ServeHTTP_installed_mux (s : Server) (port : string) (open : bool)
      (w : ResponseWriter) (r : Request) :
  isGrpcRequest r = false ->
  ServeHTTP E (installed s port open) w r
  = muxServeHTTP (handlersOf E (newMux (gatewayFor port))) w r.
Proof. intros H. unfold ServeHTTP, rootHandler. rewrite H. reflexivity. Qed.

Lemma ServeHTTP_installed_grpc (s : Server) (port : string) (open : bool)
      (w : ResponseWriter) (r : Request) :
  isGrpcRequest r = true ->
  ServeHTTP E (installed s port open) w r = grpcServeHTTP E (grpcFor s) w r.
Proof. intros H. unfold ServeHTTP, rootHandler. rewrite H. reflexivity. Qed.

End MuxFacts.

(** ** [healthz] *)

(** C7, as the code has it. While the server is serving, every request
    for /healthz that the demultiplexer does not hand to the gRPC server
    is answered with status 200 and the body OK and a newline, whatever
    the store, the item client and the other collaborators are. *)
Theorem C7_healthz_ok_unless_grpc :
  forall (E : Collaborators) (w : World) (s : Server) (st : St) (r : Request),
    Run w s = (Blocking, st) ->
    Path r = "/healthz" ->
    isGrpcRequest r = false ->
    ServeHTTP E (self st) freshWriter r = healthzResponse.
Proof.
  intros E w s st r HR Hp Hg.
  apply Run_blocking_inv in HR as (host & port & _ & _ & _ & _ & _ & ->).
  cbn [self]. rewrite ServeHTTP_installed_mux by exact Hg.
  rewrite muxServeHTTP_clean by (right; rewrite Hp; reflexivity).
  rewrite Hp, mux_healthz. reflexivity.
Qed.

(** ** Addresses *)

Section AddressFacts.

Lemma substring_all (s : string) : substring 0 (String.length s) s = s.
Proof. induction s as [|c s IH]; simpl; [reflexivity|]. rewrite IH. reflexivity. Qed.

Lemma substring_split (s : string) :
  forall n : nat, (n <= String.length s)%nat ->
    s = substring 0 n s ++ substring n (String.length s - n) s.
Proof.
  induction s as [|c s IH]; intros n Hn; simpl in *.
  - destruct n; reflexivity.
  - destruct n as [|n]; simpl.
    + rewrite substring_all. reflexivity.
    + change (String c s = String c (substring 0 n s ++ substring n (String.length s - n) s)).
      f_equal. apply IH. lia.
Qed.

Lemma substring_head (s : string) :
  forall (n : nat) (c : ascii), String.get n s = Some c ->
    substring n (String.length s - n) s
    = String c (substring (S n) (String.length s - S n) s).
Proof.
  induction s as [|d s IH]; intros n c H; [discriminate|].
  destruct n as [|n].
  - injection H as ->.
    change (String c (substring 0 (String.length s) s)
            = String c (substring 0 (String.length s - 0) s)).
    rewrite Nat.sub_0_r. reflexivity.
  - apply (IH n c H).
Qed.

Lemma get_length (s : string) :
  forall (n : nat) (c : ascii), String.get n s = Some c -> (n < String.length s)%nat.
Proof.
  induction s as [|d s IH]; intros n c H; simpl in *; [discriminate|].
  destruct n as [|n]; [lia|]. apply IH in H. lia.
Qed.

Lemma LastIndexByte_lower (s : string) (c : ascii) : -1 <= strings.LastIndexByte s c.
Proof.
  induction s as [|d s IH]; simpl; [lia|].
  destruct (strings.LastIndexByte s c <? 0) eqn:Hlt.
  - destruct (Ascii.eqb d c); lia.
  - lia.
Qed.

Lemma LastIndexByte_get (s : string) (c : ascii) :
  0 <= strings.LastIndexByte s c ->
  String.get (Z.to_nat (strings.LastIndexByte s c)) s = Some c.
Proof.
  induction s as [|d s IH]; simpl; [lia|].
  destruct (strings.LastIndexByte s c <? 0) eqn:Hlt.
  - destruct (Ascii.eqb d c) eqn:Hdc; [|lia].
    intros _. apply Ascii.eqb_eq in Hdc. subst d. reflexivity.
  - apply Z.ltb_ge in Hlt. intros _.
    replace (Z.to_nat (strings.LastIndexByte s c + 1))
      with (S (Z.to_nat (strings.LastIndexByte s c))) by lia.
    simpl. apply IH. exact Hlt.
Qed.

(** A string splits at the last occurrence of a byte. *)
Lemma LastIndexByte_split (s : string) (c : ascii) :
  let i := strings.LastIndexByte s c in
  0 <= i ->
  s = strings.slice s 0 i ++ String c (strings.sliceFrom s (i + 1)).
Proof.
  intros i Hi. subst i.
  assert (Hget := LastIndexByte_get s c Hi).
  assert (Hlen := get_length s _ _ Hget).
  unfold strings.sliceFrom, strings.slice, strings.len.
  set (n := Z.to_nat (strings.LastIndexByte s c)) in *.
  replace (Z.to_nat (strings.LastIndexByte s c - 0)) with n by lia.
  replace (Z.to_nat (strings.LastIndexByte s c + 1)) with (S n) by lia.
  replace (Z.to_nat (Z.of_nat (String.length s) - (strings.LastIndexByte s c + 1)))
    with (String.length s - S n)%nat by lia.
  change (Z.to_nat 0) with O.
  rewrite <- substring_head by exact Hget.
  apply substring_split. lia.
Qed.

(** The port [SplitHostPort] returns is what follows the last colon. *)
Lemma SplitHostPort_port (hostport host port : string) :
  net.SplitHostPort hostport = inl (host, port) ->
  0 <= strings.LastIndexByte hostport ":"
  /\ port = strings.sliceFrom hostport (strings.LastIndexByte hostport ":" + 1).
Proof.
  unfold net.SplitHostPort. intros H.
  destruct (strings.LastIndexByte hostport ":" <? 0) eqn:Hi; [discriminate|].
  apply Z.ltb_ge in Hi. split; [exact Hi|].
  repeat match type of H with
         | (if ?b then _ else _) = _ => destruct b; try discriminate
         end; injection H as _ <-; reflexivity.
Qed.


Lemma JoinHostPort_loopback (port : string) :
  net.JoinHostPort "127.0.0.1" port = "127.0.0.1:" ++ port.
Proof. reflexivity. Qed.

End AddressFacts.

(** ** The gateway *)




(** ** The sleeper delay *)

(** C3, as the code has it. The delay of the sleeper stage is not part
    of what can be configured: whatever the server and the options it
    was built with, as soon as [Run] has a logger and a listener the
    gRPC server it builds carries exactly one sleeper, of three seconds. *)
Theorem C3_sleeper_delay_fixed_at_three_seconds :
  forall (w : World) (s : Server),
    loggerErr w = None -> listenErr w (address s) = None ->
    exists g,
      grpc (self (snd (Run w s))) = Some g
      /\ sleeperDelays (grpc.chain g) = [3 * time.Second]
      /\ EvNewServer serverInterceptors ∈ events (snd (Run w s)).
Proof.
  intros w s H1 H2.
  destruct (net.SplitHostPort (address s)) as [[host port]|e] eqn:H3.
  - destruct (gatewayErr w (net.JoinHostPort "127.0.0.1" port)) as [e|] eqn:H4.
    + rewrite (Run_gateway_fails _ _ _ _ _ H1 H2 H3 H4). eexists.
      split; [reflexivity|]. split; [reflexivity|].
      cbn [snd events]. unfold setupEvents. set_solver.
    + rewrite (Run_serving _ _ _ _ H1 H2 H3 H4).
      destruct (serveRet w); eexists; (split; [reflexivity|]);
        (split; [reflexivity|]); cbn [snd events];
        unfold servingEvents, setupEvents; set_solver.
  - rewrite (Run_address_invalid _ _ _ H1 H2 H3). eexists.
    split; [reflexivity|]. split; [reflexivity|].
    cbn [snd events]. unfold setupEvents. set_solver.
Qed.

Lemma C3_witness :
  exists g,
    grpc (self (snd (Run sample.quiet (setAddress ":9000" sample.built)))) = Some g
    /\ sleeperDelays (grpc.chain g) = [3 * time.Second]
    /\ EvNewServer serverInterceptors
       ∈ events (snd (Run sample.quiet (setAddress ":9000" sample.built))).
Proof.
  apply (C3_sleeper_delay_fixed_at_three_seconds
           sample.quiet (setAddress ":9000" sample.built)); reflexivity.
Defined.

(** The server built with no options sleeps three seconds on every call,
    not zero, and the sleeper is not absent. *)
Lemma C3_counterexample :
  configuredSleep sample.quiet [] = Some [3000000000]
  /\ configuredSleep sample.quiet [] <> Some [0]
  /\ configuredSleep sample.quiet [] <> Some [].
Proof. split; [reflexivity|]. split; discriminate. Qed.

(** ** Witnesses and counterexamples *)



Lemma C5_witness :
  fst (Run sample.portTaken sample.built)
  = Returned (Some (Wrap (ErrOther "bind: address already in use")
                         "failed to listen on :8080")).
Proof.
  destruct (C5_Run_errors_and_blocking sample.portTaken sample.built) as (H & _).
  apply (H (ErrOther "bind: address already in use") eq_refl). reflexivity.
Defined.



(** ** The health path over HTTP/2 with the gRPC content type *)

Lemma healthz_as_grpc_refused (E : Collaborators) (s : Server) (port : string) :
  ServeHTTP E (installed s port true) freshWriter sample.healthzAsGrpc
  = Error freshWriter "invalid gRPC request method" StatusInternalServerError.
Proof. reflexivity. Qed.

(** A request for /healthz that the demultiplexer hands to the gRPC
    server is not answered by [healthz]. *)
Lemma C7_counterexample :
  fst (Run sample.quiet sample.built) = Blocking
  /\ Path sample.healthzAsGrpc = "/healthz"
  /\ status (ServeHTTP sample.collaborators
               (self (snd (Run sample.quiet sample.built)))
               freshWriter sample.healthzAsGrpc) = Some 500
  /\ ServeHTTP sample.collaborators
       (self (snd (Run sample.quiet sample.built)))
       freshWriter sample.healthzAsGrpc <> healthzResponse.
Proof.
  split; [reflexivity|]. split; [reflexivity|]. split; [reflexivity|discriminate].
Qed.

Lemma C7_witness :
  ServeHTTP sample.collaborators
    (self (snd (Run sample.quiet sample.built))) freshWriter sample.healthzGet
  = healthzResponse.
Proof.
  apply (C7_healthz_ok_unless_grpc sample.collaborators sample.quiet sample.built
           (snd (Run sample.quiet sample.built)) sample.healthzGet);
    reflexivity.
Defined.

Lemma C8_witness :
  length (filter (fun ev => ev = EvLoadSampleData)
                 (events (snd (New sample.quiet [SetAddress ":9000"])))) = 1%nat
  /\ sampleLoads <$> store (setAddress ":9000" sample.built) = Some 1%nat.
Proof.
  apply (C8_New_always_loads_sample_data sample.quiet [SetAddress ":9000"]
           (setAddress ":9000" sample.built)
           (snd (New sample.quiet [SetAddress ":9000"]))).
  reflexivity.
Defined.

Lemma C9_witness :
  (exists rest,
     events (snd (New sample.quiet []))
     = EvDialContext "127.0.0.1:9090" itemDialOptions :: rest)
  /\ (exists s', fst (New sample.quiet []) = Returned (Some s', None)
                 /\ endpoint s' = "127.0.0.1:9090"
                 /\ item s'
                    = Some {| cc := {| grpc.target := "127.0.0.1:9090";
                                       grpc.dopts := itemDialOptions |} |}).
Proof.
  destruct (C9_item_connection_dialed_at_endpoint sample.quiet [] defaultServer
              eq_refl)
    as (Hdial & _ & _ & _ & _ & Hok).
  split; [exact Hdial|]. exact (Hok eq_refl).
Defined.

Lemma C10_witness :
  fst (New sample.quiet [SetAddress ":9000"; sample.refuse; SetEndpoint "items:9090"])
  = Returned (None, Some (Wrap (ErrOther "refused") "options function failed"))
  /\ events (snd (New sample.quiet
                    [SetAddress ":9000"; sample.refuse; SetEndpoint "items:9090"]))
     = []
  /\ New sample.quiet [SetAddress ":9000"; sample.refuse; SetEndpoint "items:9090"]
     = New sample.quiet [SetAddress ":9000"; sample.refuse].
Proof.
  apply (C10_option_failure_has_no_effects sample.quiet
           [SetAddress ":9000"] [SetEndpoint "items:9090"] sample.refuse
           (setAddress ":9000" defaultServer) (ErrOther "refused"));
    reflexivity.
Defined.

(** * Further properties *)

(** ** Options and construction *)

(** X1. When the item endpoint cannot be dialed, [New] returns nil and
    the dial error wrapped, and the dial is the only call it has made:
    no item client, no store, no sample data. *)
Theorem New_dial_failure :
  forall (w : World) (options : list OptionsFunc) (s : Server) (e : error),
    optionsResult options defaultServer = inl s ->
    dialErr w (endpoint s) = Some e ->
    fst (New w options)
    = Returned (None, Some (Wrap e "could not create grpc client"))
    /\ events (snd (New w options)) = [EvDialContext (endpoint s) itemDialOptions].
Proof.
  intros w options s e Hopt Hdial. rewrite New_spec, Hopt, Hdial.
  split; reflexivity.
Qed.

Lemma New_dial_failure_witness :
  fst (New sample2.noDial [SetEndpoint "items:9090"])
  = Returned (None, Some (Wrap (ErrOther "grpc: no transport security set")
                               "could not create grpc client"))
  /\ events (snd (New sample2.noDial [SetEndpoint "items:9090"]))
     = [EvDialContext "items:9090" itemDialOptions].
Proof.
  apply (New_dial_failure sample2.noDial [SetEndpoint "items:9090"]
           (setEndpoint "items:9090" defaultServer)); reflexivity.
Defined.

Lemma settings_result (l : list Setting) :
  forall s : Server,
    optionsResult (List.map optionOf l) s
    = inl {| address := lastAddress l (address s);
             endpoint := lastEndpoint l (endpoint s);
             server := server s; grpc := grpc s;
             store := store s; item := item s |}.
Proof.
  induction l as [|[a|a] l IH]; intros s.
  - destruct s; reflexivity.
  - cbn [List.map optionOf optionsResult SetAddress]. rewrite IH. reflexivity.
  - cbn [List.map optionOf optionsResult SetEndpoint]. rewrite IH. reflexivity.
Qed.

(** X2. [SetAddress] and [SetEndpoint] never fail, and in any number and
    order they leave the address of the last [SetAddress] and the
    endpoint of the last [SetEndpoint] (the defaults :8080 and
    127.0.0.1:9090 where there is none); [New] dials that endpoint, and
    when the dial succeeds returns a server with that address, that
    endpoint and no HTTP or gRPC server yet. *)
Theorem New_with_settings :
  forall (w : World) (l : list Setting),
    let a := lastAddress l ":8080" in
    let e := lastEndpoint l "127.0.0.1:9090" in
    (exists rest,
       events (snd (New w (List.map optionOf l)))
       = EvDialContext e itemDialOptions :: rest)
    /\ (dialErr w e = None ->
        exists s, fst (New w (List.map optionOf l)) = Returned (Some s, None)
                  /\ address s = a /\ endpoint s = e
                  /\ server s = None /\ grpc s = None).
Proof.
  intros w l a e. rewrite New_spec, settings_result. cbn [endpoint defaultServer].
  fold e. split.
  - destruct (dialErr w e); eexists; reflexivity.
  - intros ->. eexists. split; [reflexivity|]. repeat split.
Qed.

Lemma New_with_settings_witness :
  exists s,
    fst (New sample.quiet (List.map optionOf sample2.settings))
    = Returned (Some s, None)
    /\ address s = "[::1]:7000" /\ endpoint s = "items:9090"
    /\ server s = None /\ grpc s = None.
Proof.
  destruct (New_with_settings sample.quiet sample2.settings) as [_ H].
  exact (H eq_refl).
Defined.

(** X3. A server fresh from [New] with any of the package's options has
    no HTTP server yet, so [Stop] before [Run] panics on the nil
    pointer. *)
Theorem Stop_before_Run_panics :
  forall (w : World) (l : list Setting) (s : Server),
    fst (New w (List.map optionOf l)) = Returned (Some s, None) ->
    Stop s = Panicked nilDereference.
Proof.
  intros w l s H. rewrite New_spec, settings_result in H.
  cbn [endpoint defaultServer] in H.
  destruct (dialErr w (lastEndpoint l "127.0.0.1:9090")); [discriminate|].
  cbn [fst] in H. injection H as <-. reflexivity.
Qed.

Lemma Stop_before_Run_panics_witness :
  Stop (constructed (setEndpoint "items:9090" defaultServer))
  = Panicked nilDereference.
Proof.
  apply (Stop_before_Run_panics sample.quiet [Endpoint "items:9090"]).
  reflexivity.
Defined.

(** ** What [Run] changes and what it returns *)

(** The five ways [Run] can go, by the answers of the world. *)
Lemma Run_cases (w : World) (s : Server) :
  (exists e, loggerErr w = Some e)
  \/ (loggerErr w = None /\ exists e, listenErr w (address s) = Some e)
  \/ (loggerErr w = None /\ listenErr w (address s) = None
      /\ exists e, net.SplitHostPort (address s) = inr e)
  \/ (loggerErr w = None /\ listenErr w (address s) = None
      /\ exists host port e,
           net.SplitHostPort (address s) = inl (host, port)
           /\ gatewayErr w (net.JoinHostPort "127.0.0.1" port) = Some e)
  \/ setupSucceeds w s.
Proof.
  unfold setupSucceeds.
  destruct (loggerErr w) as [e|]; [left; eauto|]. right.
  destruct (listenErr w (address s)) as [e|]; [left; eauto|]. right.
  destruct (net.SplitHostPort (address s)) as [[host port]|e] eqn:H3;
    [|left; eauto]. right.
  destruct (gatewayErr w (net.JoinHostPort "127.0.0.1" port)) as [e|] eqn:H4.
  - left. repeat split; eauto.
  - right. repeat split; eauto.
Qed.

(** X4. [Run] assigns [s.grpc] and [s.server] only: on every path, with
    whatever outcome, the address, the endpoint, the store and the item
    client of the server are the ones it started with. *)
Theorem Run_keeps_configuration :
  forall (w : World) (s : Server),
    let s' := self (snd (Run w s)) in
    address s' = address s /\ endpoint s' = endpoint s
    /\ store s' = store s /\ item s' = item s.
Proof.
  intros w s.
  destruct (Run_cases w s)
    as [[e H1]|[[H1 [e H2]]|[(H1 & H2 & e & H3)|[(H1 & H2 & host & port & e & H3 & H4)
       |(H1 & H2 & host & port & H3 & H4)]]]].
  - rewrite (Run_logger_fails _ _ _ H1). repeat split.
  - rewrite (Run_listen_fails _ _ _ H1 H2). repeat split.
  - rewrite (Run_address_invalid _ _ _ H1 H2 H3). repeat split.
  - rewrite (Run_gateway_fails _ _ _ _ _ H1 H2 H3 H4). repeat split.
  - rewrite (Run_serving _ _ _ _ H1 H2 H3 H4).
    destruct (serveRet w); repeat split.
Qed.

(** X5. Every error [Run] returns is a wrapped one, under one of its
    five messages; it is never a collaborator's error as such, and in
    particular never [http.ErrServerClosed]. *)
Theorem Run_errors_are_wrapped :
  forall (w : World) (s : Server) (e : error),
    fst (Run w s) = Returned (Some e) ->
    exists cause msg,
      e = Wrap cause msg /\ msg ∈ runMessages s /\ e <> ErrServerClosed.
Proof.
  intros w s e H. unfold runMessages.
  destruct (Run_cases w s)
    as [[e1 H1]|[[H1 [e1 H2]]|[(H1 & H2 & e1 & H3)|[(H1 & H2 & host & port & e1 & H3 & H4)
       |(H1 & H2 & host & port & H3 & H4)]]]].
  - rewrite (Run_logger_fails _ _ _ H1) in H. injection H as <-.
    eexists _, _. split; [reflexivity|]. split; [set_solver|discriminate].
  - rewrite (Run_listen_fails _ _ _ H1 H2) in H. injection H as <-.
    eexists _, _. split; [reflexivity|]. split; [set_solver|discriminate].
  - rewrite (Run_address_invalid _ _ _ H1 H2 H3) in H. injection H as <-.
    eexists _, _. split; [reflexivity|]. split; [set_solver|discriminate].
  - rewrite (Run_gateway_fails _ _ _ _ _ H1 H2 H3 H4) in H. injection H as <-.
    eexists _, _. split; [reflexivity|]. split; [set_solver|discriminate].
  - rewrite (Run_serving _ _ _ _ H1 H2 H3 H4) in H.
    destruct (serveRet w) as [|[e1|]]; try discriminate.
    cbn [fst serveError] in H.
    destruct (bool_decide (e1 <> ErrServerClosed)); [|discriminate].
    injection H as <-.
    eexists _, _. split; [reflexivity|]. split; [set_solver|discriminate].
Qed.

Lemma Run_errors_are_wrapped_witness :
  exists cause msg,
    Wrap (ErrOther "context canceled") "failed to register grpc gateway"
    = Wrap cause msg
    /\ msg ∈ runMessages sample.built
    /\ Wrap (ErrOther "context canceled") "failed to register grpc gateway"
       <> ErrServerClosed.
Proof.
  apply (Run_errors_are_wrapped sample2.noGateway sample.built). reflexivity.
Defined.

(** X6. [Run] returns nil only when the whole setup succeeded and
    [Serve] came back with nil or with [http.ErrServerClosed]. *)
Theorem Run_nil_only_after_serving :
  forall (w : World) (s : Server),
    fst (Run w s) = Returned None ->
    setupSucceeds w s
    /\ (serveRet w = ServeReturned None
        \/ serveRet w = ServeReturned (Some ErrServerClosed)).
Proof.
  intros w s H.
  destruct (Run_cases w s)
    as [[e1 H1]|[[H1 [e1 H2]]|[(H1 & H2 & e1 & H3)|[(H1 & H2 & host & port & e1 & H3 & H4)
       |Hsetup]]]].
  - rewrite (Run_logger_fails _ _ _ H1) in H. discriminate.
  - rewrite (Run_listen_fails _ _ _ H1 H2) in H. discriminate.
  - rewrite (Run_address_invalid _ _ _ H1 H2 H3) in H. discriminate.
  - rewrite (Run_gateway_fails _ _ _ _ _ H1 H2 H3 H4) in H. discriminate.
  - split; [exact Hsetup|].
    destruct Hsetup as (H1 & H2 & host & port & H3 & H4).
    rewrite (Run_serving _ _ _ _ H1 H2 H3 H4) in H.
    destruct (serveRet w) as [|[e1|]]; try discriminate; [|left; reflexivity].
    cbn [fst serveError] in H. right.
    destruct (decide (e1 = ErrServerClosed)) as [->|Hne]; [reflexivity|].
    rewrite bool_decide_true in H by exact Hne. discriminate.
Qed.

Lemma Run_nil_only_after_serving_witness :
  setupSucceeds sample2.stopped sample.built
  /\ (serveRet sample2.stopped = ServeReturned None
      \/ serveRet sample2.stopped = ServeReturned (Some ErrServerClosed)).
Proof.
  apply (Run_nil_only_after_serving sample2.stopped sample.built). reflexivity.
Defined.

(** ** How far [Run] gets *)

(** Membership in an explicit list of events. *)
Ltac event_absent H :=
  repeat (apply elem_of_cons in H as [H|H]; [discriminate H|]);
  apply elem_of_nil in H; destruct H.

Ltac event_present :=
  repeat first [apply list_elem_of_here | apply list_elem_of_further].

Lemma Run_Serve_event (w : World) (s : Server) :
  (EvServe ∈ events (snd (Run w s)) <-> setupSucceeds w s)
  /\ (EvServe ∉ events (snd (Run w s)) ->
      server (self (snd (Run w s))) = server s)
  /\ (EvServe ∈ events (snd (Run w s)) ->
      exists h, server (self (snd (Run w s))) = Some h).
Proof.
  destruct (Run_cases w s)
    as [[e1 H1]|[[H1 [e1 H2]]|[(H1 & H2 & e1 & H3)|[(H1 & H2 & host & port & e1 & H3 & H4)
       |Hsetup]]]].
  - rewrite (Run_logger_fails _ _ _ H1). cbn [snd events self].
    split; [|split]; [split| |]; intros H; try reflexivity.
    + event_absent H.
    + destruct H as (H & _). congruence.
    + event_absent H.
  - rewrite (Run_listen_fails _ _ _ H1 H2). cbn [snd events self].
    split; [|split]; [split| |]; intros H; try reflexivity.
    + event_absent H.
    + destruct H as (_ & H & _). congruence.
    + event_absent H.
  - rewrite (Run_address_invalid _ _ _ H1 H2 H3). cbn [snd events self].
    unfold setupEvents.
    split; [|split]; [split| |]; intros H; try reflexivity.
    + event_absent H.
    + destruct H as (_ & _ & host & port & H & _). congruence.
    + event_absent H.
  - rewrite (Run_gateway_fails _ _ _ _ _ H1 H2 H3 H4). cbn [snd events self].
    unfold setupEvents. cbn [app].
    split; [|split]; [split| |]; intros H; try reflexivity.
    + event_absent H.
    + destruct H as (_ & _ & host' & port' & H & H'). congruence.
    + event_absent H.
  - destruct Hsetup as (H1 & H2 & host & port & H3 & H4).
    rewrite (Run_serving _ _ _ _ H1 H2 H3 H4).
    assert (Hin : EvServe ∈ servingEvents s port).
    { unfold servingEvents, setupEvents. cbn [app]. event_present. }
    destruct (serveRet w); cbn [snd events self];
      (split; [|split]; [split| |]; intros H;
       [ unfold setupSucceeds; eauto 10 | exact Hin | contradiction
       | eexists; reflexivity ]).
Qed.

(** X7. [Run] calls [Serve] exactly when the logger, the listener, the
    address split and the gateway registration have all succeeded; on
    every other path it returns an error with [s.server] as it found
    it. *)
Theorem Run_reaches_Serve_iff_setup_succeeds :
  forall (w : World) (s : Server),
    (EvServe ∈ events (snd (Run w s)) <-> setupSucceeds w s)
    /\ (~ setupSucceeds w s ->
        server (self (snd (Run w s))) = server s
        /\ exists e, fst (Run w s) = Returned (Some e)).
Proof.
  intros w s. destruct (Run_Serve_event w s) as (Hiff & Hnot & _).
  split; [exact Hiff|]. intros Hfail. split.
  - apply Hnot. rewrite Hiff. exact Hfail.
  - destruct (Run_cases w s)
      as [[e1 H1]|[[H1 [e1 H2]]|[(H1 & H2 & e1 & H3)
         |[(H1 & H2 & host & port & e1 & H3 & H4)|Hsetup]]]].
    + rewrite (Run_logger_fails _ _ _ H1). eexists; reflexivity.
    + rewrite (Run_listen_fails _ _ _ H1 H2). eexists; reflexivity.
    + rewrite (Run_address_invalid _ _ _ H1 H2 H3). eexists; reflexivity.
    + rewrite (Run_gateway_fails _ _ _ _ _ H1 H2 H3 H4). eexists; reflexivity.
    + contradiction.
Qed.

Lemma Run_reaches_Serve_witness :
  server (self (snd (Run sample2.noGateway sample.built))) = server sample.built
  /\ exists e, fst (Run sample2.noGateway sample.built) = Returned (Some e).
Proof.
  destruct (Run_reaches_Serve_iff_setup_succeeds sample2.noGateway sample.built)
    as (_ & H).
  apply H. intros (_ & _ & host & port & Hsplit & Hgw). discriminate Hgw.
Defined.

(** X8. On a server that has no HTTP server yet, as [New] returns it,
    [Stop] after [Run] panics exactly when [Run] never got to [Serve]. *)
Theorem Stop_after_Run_panics_iff_never_served :
  forall (w : World) (s : Server),
    server s = None ->
    (Stop (self (snd (Run w s))) = Panicked nilDereference
     <-> EvServe ∉ events (snd (Run w s))).
Proof.
  intros w s Hnil.
  destruct (Run_Serve_event w s) as (_ & Hnot & Hin).
  split.
  - intros Hp Hserve. destruct (Hin Hserve) as [h Hh].
    unfold Stop in Hp. rewrite Hh in Hp.
    destruct (shutdown.Shutdown h stopTimeout) as [[? ?] ?]. discriminate.
  - intros Hserve. unfold Stop. rewrite (Hnot Hserve), Hnil. reflexivity.
Qed.

Lemma Stop_after_Run_witness :
  Stop (self (snd (Run sample2.noGateway sample.built))) = Panicked nilDereference.
Proof.
  apply (Stop_after_Run_panics_iff_never_served sample2.noGateway sample.built eq_refl).
  intros Hin. cbn in Hin. event_absent Hin.
Defined.

(** X9. [Run] on its own state: running again in the same world on the
    server a [Run] has left gives the same outcome, the same calls and
    the same server; the gRPC server is built afresh each time, so the
    registered services do not pile up. *)
Theorem Run_again_is_the_same :
  forall (w : World) (s : Server),
    Run w (self (snd (Run w s))) = Run w s.
Proof.
  intros w s.
  destruct (Run_cases w s)
    as [[e1 H1]|[[H1 [e1 H2]]|[(H1 & H2 & e1 & H3)|[(H1 & H2 & host & port & e1 & H3 & H4)
       |(H1 & H2 & host & port & H3 & H4)]]]].
  - rewrite (Run_logger_fails w s e1 H1). cbn [snd self].
    apply (Run_logger_fails w s e1 H1).
  - rewrite (Run_listen_fails w s e1 H1 H2). cbn [snd self].
    apply (Run_listen_fails w s e1 H1 H2).
  - rewrite (Run_address_invalid w s e1 H1 H2 H3). cbn [snd self].
    rewrite (Run_address_invalid w _ e1 H1); [reflexivity| exact H2 | exact H3].
  - rewrite (Run_gateway_fails w s host port e1 H1 H2 H3 H4). cbn [snd self].
    rewrite (Run_gateway_fails w _ host port e1 H1);
      [reflexivity| exact H2 | exact H3 | exact H4].
  - rewrite (Run_serving w s host port H1 H2 H3 H4).
    destruct (serveRet w) as [|err] eqn:Hs; cbn [snd self].
    + rewrite (Run_serving w _ host port H1); [|exact H2|exact H3|exact H4].
      rewrite Hs. reflexivity.
    + rewrite (Run_serving w _ host port H1); [|exact H2|exact H3|exact H4].
      rewrite Hs. reflexivity.
Qed.

(** X10. The service [Run] registers on the gRPC server is the store
    [New] built: one service, whose sample data was loaded once and
    whose item client sits on the connection dialed at the endpoint. *)
Theorem Run_registers_the_store_of_New :
  forall (w w' : World) (options : list OptionsFunc) (s : Server) (st : St),
    fst (New w options) = Returned (Some s, None) ->
    Run w' s = (Blocking, st) ->
    exists o,
      grpc (self st)
      = Some {| grpc.chain := serverInterceptors; grpc.services := [Some o] |}
      /\ store (self st) = Some o
      /\ sampleLoads o = 1%nat
      /\ item (self st) = Some (storeItem o)
      /\ grpc.target (cc (storeItem o)) = endpoint s.
Proof.
  intros w w' options s st HN HR. rewrite New_spec in HN.
  destruct (optionsResult options defaultServer) as [s1|[e s1]]; [|discriminate].
  destruct (dialErr w (endpoint s1)); [discriminate|].
  cbn [fst] in HN. injection HN as <-.
  apply Run_blocking_inv in HR as (host & port & _ & _ & _ & _ & _ & ->).
  eexists. cbn. repeat split.
Qed.

Lemma Run_registers_the_store_witness :
  exists o,
    grpc (self (snd (Run sample.quiet sample.built)))
    = Some {| grpc.chain := serverInterceptors; grpc.services := [Some o] |}
    /\ store (self (snd (Run sample.quiet sample.built))) = Some o
    /\ sampleLoads o = 1%nat
    /\ item (self (snd (Run sample.quiet sample.built))) = Some (storeItem o)
    /\ grpc.target (cc (storeItem o)) = endpoint sample.built.
Proof.
  apply (Run_registers_the_store_of_New sample.quiet sample.quiet [] sample.built
           (snd (Run sample.quiet sample.built))); reflexivity.
Defined.

(** ** Addresses without a port, and the gateway endpoint *)

Section MoreAddressFacts.

Lemma IndexByte_lower (s : string) (c : ascii) : -1 <= strings.IndexByte s c.
Proof.
  induction s as [|d s IH]; simpl; [lia|].
  destruct (Ascii.eqb d c); [lia|].
  destruct (strings.IndexByte s c <? 0); lia.
Qed.

Lemma IndexByte_cons (d : ascii) (t : string) (c : ascii) :
  strings.IndexByte (String d t) c < 0 <->
  d <> c /\ strings.IndexByte t c < 0.
Proof.
  simpl. destruct (Ascii.eqb d c) eqn:Hdc.
  - apply Ascii.eqb_eq in Hdc. split; [lia|]. intros [Hne _]. contradiction.
  - apply Ascii.eqb_neq in Hdc.
    destruct (strings.IndexByte t c <? 0) eqn:Hlt.
    + apply Z.ltb_lt in Hlt. split; [auto|lia].
    + apply Z.ltb_ge in Hlt. split; [lia|]. intros [_ H]. lia.
Qed.

Lemma IndexByte_app (x y : string) (c : ascii) :
  strings.IndexByte (x ++ y) c < 0 <->
  strings.IndexByte x c < 0 /\ strings.IndexByte y c < 0.
Proof.
  induction x as [|d x IH].
  - change ("" ++ y) with y. simpl. split; [intros H; split; [lia|exact H]|tauto].
  - change (String d x ++ y) with (String d (x ++ y)).
    rewrite !IndexByte_cons, IH. tauto.
Qed.

Lemma LastIndexByte_absent (s : string) (c : ascii) :
  strings.LastIndexByte s c < 0 <-> strings.IndexByte s c < 0.
Proof.
  induction s as [|d s IH]; [simpl; lia|].
  rewrite IndexByte_cons, <- IH. simpl.
  destruct (strings.LastIndexByte s c <? 0) eqn:Hlt.
  - apply Z.ltb_lt in Hlt. destruct (Ascii.eqb d c) eqn:Hdc.
    + apply Ascii.eqb_eq in Hdc. split; [lia|]. intros [Hne _]. contradiction.
    + apply Ascii.eqb_neq in Hdc. split; [auto|lia].
  - apply Z.ltb_ge in Hlt. split; [lia|]. intros [_ H]. lia.
Qed.

(** After the last occurrence of a byte there is none. *)
Lemma LastIndexByte_app (x y : string) (c : ascii) :
  strings.IndexByte y c < 0 ->
  strings.LastIndexByte (x ++ String c y) c = strings.len x.
Proof.
  intros Hy. apply LastIndexByte_absent in Hy. unfold strings.len.
  induction x as [|d x IH].
  - change ("" ++ String c y) with (String c y). simpl.
    apply Z.ltb_lt in Hy. rewrite Hy, Ascii.eqb_refl. reflexivity.
  - change (String d x ++ String c y) with (String d (x ++ String c y)).
    cbn [strings.LastIndexByte]. rewrite IH.
    destruct (Z.of_nat (String.length x) <? 0) eqn:Hlt.
    + apply Z.ltb_lt in Hlt. lia.
    + cbn [String.length]. lia.
Qed.

Lemma substring_app_l (x y : string) :
  substring 0 (String.length x) (x ++ y) = x.
Proof.
  induction x as [|d x IH].
  - destruct y; reflexivity.
  - change (String d x ++ y) with (String d (x ++ y)). simpl. rewrite IH. reflexivity.
Qed.

Lemma substring_app_r (x y : string) :
  forall m : nat, substring (String.length x) m (x ++ y) = substring 0 m y.
Proof.
  induction x as [|d x IH]; intros m; [reflexivity|].
  change (String d x ++ y) with (String d (x ++ y)). simpl. apply IH.
Qed.

Lemma length_app (x y : string) :
  String.length (x ++ y) = (String.length x + String.length y)%nat.
Proof.
  induction x as [|d x IH]; [reflexivity|].
  change (String d x ++ y) with (String d (x ++ y)). simpl. rewrite IH. reflexivity.
Qed.

Lemma append_assoc (x y z : string) : x ++ (y ++ z) = (x ++ y) ++ z.
Proof.
  induction x as [|d x IH]; [reflexivity|].
  change (String d (x ++ (y ++ z)) = String d ((x ++ y) ++ z)). rewrite IH. reflexivity.
Qed.

Lemma slice_app_l (x y : string) : strings.slice (x ++ y) 0 (strings.len x) = x.
Proof.
  unfold strings.slice, strings.len. change (Z.to_nat 0) with O.
  replace (Z.to_nat (Z.of_nat (String.length x) - 0)) with (String.length x) by lia.
  apply substring_app_l.
Qed.

Lemma sliceFrom_app_r (x y : string) (c : ascii) :
  strings.sliceFrom (x ++ String c y) (strings.len x + 1) = y.
Proof.
  unfold strings.sliceFrom, strings.slice, strings.len.
  change (x ++ String c y) with (x ++ (String c "" ++ y)).
  rewrite append_assoc.
  replace (Z.to_nat (Z.of_nat (String.length x) + 1))
    with (String.length (x ++ String c "")) by (rewrite length_app; simpl; lia).
  rewrite substring_app_r.
  replace (Z.to_nat _) with (String.length y).
  - apply substring_all.
  - rewrite !length_app. simpl. lia.
Qed.

Lemma sliceFrom_0 (s : string) : strings.sliceFrom s 0 = s.
Proof.
  unfold strings.sliceFrom, strings.slice, strings.len. change (Z.to_nat 0) with O.
  replace (Z.to_nat (Z.of_nat (String.length s) - 0)) with (String.length s) by lia.
  apply substring_all.
Qed.

Lemma get_beyond (s : string) :
  forall n : nat, String.get n s = None -> forall m, substring n m s = "".
Proof.
  induction s as [|d s IH]; intros n H m.
  - destruct n, m; reflexivity.
  - destruct n as [|n]; [discriminate|]. simpl. apply IH. exact H.
Qed.

(** A byte absent from a tail of a string is absent from every later
    tail. *)
Lemma sliceFrom_absent_step (s : string) (c : ascii) (n : nat) :
  strings.IndexByte (substring n (String.length s - n) s) c < 0 ->
  strings.IndexByte (substring (S n) (String.length s - S n) s) c < 0.
Proof.
  destruct (String.get n s) as [d|] eqn:Hget.
  - rewrite (substring_head s n d Hget), IndexByte_cons. tauto.
  - intros _.
    assert (Hnone : String.get (S n) s = None).
    { clear -Hget. revert n Hget. induction s as [|d s IH]; intros n H; [reflexivity|].
      destruct n as [|n]; [discriminate|]. simpl in *. apply IH. exact H. }
    rewrite (get_beyond s (S n) Hnone). simpl. lia.
Qed.

Lemma sliceFrom_absent (s : string) (c : ascii) (m n : Z) :
  0 <= m <= n ->
  strings.IndexByte (strings.sliceFrom s m) c < 0 ->
  strings.IndexByte (strings.sliceFrom s n) c < 0.
Proof.
  intros Hmn. unfold strings.sliceFrom, strings.slice, strings.len.
  replace (Z.to_nat (Z.of_nat (String.length s) - m))
    with (String.length s - Z.to_nat m)%nat by lia.
  replace (Z.to_nat (Z.of_nat (String.length s) - n))
    with (String.length s - Z.to_nat n)%nat by lia.
  assert (Hle : (Z.to_nat m <= Z.to_nat n)%nat) by lia.
  induction Hle as [|k Hle IH]; [tauto|].
  intros H. apply sliceFrom_absent_step. apply IH. exact H.
Qed.

Lemma sliceFrom_cons (d : ascii) (t : string) (k : Z) :
  0 <= k -> strings.sliceFrom (String d t) (k + 1) = strings.sliceFrom t k.
Proof.
  intros Hk. unfold strings.sliceFrom, strings.slice, strings.len.
  replace (Z.to_nat (k + 1)) with (S (Z.to_nat k)) by lia.
  replace (Z.to_nat (Z.of_nat (String.length (String d t)) - (k + 1)))
    with (Z.to_nat (Z.of_nat (String.length t) - k)) by (cbn [String.length]; lia).
  reflexivity.
Qed.

Lemma LastIndexByte_after (s : string) (c : ascii) :
  0 <= strings.LastIndexByte s c ->
  strings.IndexByte (strings.sliceFrom s (strings.LastIndexByte s c + 1)) c < 0.
Proof.
  induction s as [|d t IH]; [simpl; lia|].
  cbn [strings.LastIndexByte].
  destruct (strings.LastIndexByte t c <? 0) eqn:Hlt.
  - apply Z.ltb_lt in Hlt. destruct (Ascii.eqb d c); [|lia]. intros _.
    change (0 + 1) with (0 + 1). rewrite sliceFrom_cons by lia.
    rewrite sliceFrom_0. apply LastIndexByte_absent. exact Hlt.
  - apply Z.ltb_ge in Hlt. intros _. rewrite sliceFrom_cons by lia.
    apply IH. exact Hlt.
Qed.

(** What [SplitHostPort] has checked when it succeeds: the port follows
    the last colon and holds no bracket. *)
Lemma SplitHostPort_port_clean (hostport host port : string) :
  net.SplitHostPort hostport = inl (host, port) ->
  strings.IndexByte port ":" < 0
  /\ strings.IndexByte port "[" < 0
  /\ strings.IndexByte port "]" < 0.
Proof.
  intros H. destruct (SplitHostPort_port _ _ _ H) as [Hi Hport].
  assert (Hcolon : strings.IndexByte port ":" < 0).
  { rewrite Hport. apply LastIndexByte_after. exact Hi. }
  split; [exact Hcolon|].
  unfold net.SplitHostPort in H. cbv zeta in H.
  destruct (strings.LastIndexByte hostport ":" <? 0); [discriminate|].
  set (i := strings.LastIndexByte hostport ":") in *.
  assert (Hchecked : forall h j k,
    0 <= j <= i + 1 -> 0 <= k <= i + 1 ->
    (if 0 <=? strings.IndexByte (strings.sliceFrom hostport j) "["
     then inr (net.addrErr hostport "unexpected '[' in address")
     else if 0 <=? strings.IndexByte (strings.sliceFrom hostport k) "]"
          then inr (net.addrErr hostport "unexpected ']' in address")
          else inl (h, strings.sliceFrom hostport (i + 1)))
    = @inl (string * string) error (host, port) ->
    strings.IndexByte port "[" < 0 /\ strings.IndexByte port "]" < 0).
  { intros h j k Hj Hk Hc.
    destruct (0 <=? strings.IndexByte (strings.sliceFrom hostport j) "[") eqn:H1;
      [discriminate|].
    destruct (0 <=? strings.IndexByte (strings.sliceFrom hostport k) "]") eqn:H2;
      [discriminate|].
    apply Z.leb_gt in H1, H2. rewrite Hport. split.
    - apply (sliceFrom_absent hostport "[" j (i + 1) Hj H1).
    - apply (sliceFrom_absent hostport "]" k (i + 1) Hk H2). }
  destruct (bool_decide (strings.byteAt hostport 0 = Some "["%char)).
  - destruct (strings.IndexByte hostport "]" <? 0) eqn:He; [discriminate|].
    apply Z.ltb_ge in He.
    destruct (strings.IndexByte hostport "]" + 1 =? strings.len hostport);
      [discriminate|].
    destruct (strings.IndexByte hostport "]" + 1 =? i) eqn:Hei.
    + apply Z.eqb_eq in Hei.
      apply (Hchecked (strings.slice hostport 1 (strings.IndexByte hostport "]"))
                      1 (strings.IndexByte hostport "]" + 1));
        [lia|lia|exact H].
    + destruct (bool_decide _); discriminate.
  - destruct (0 <=? strings.IndexByte (strings.slice hostport 0 i) ":");
      [discriminate|].
    apply (Hchecked (strings.slice hostport 0 i) 0 0); [lia|lia|exact H].
Qed.

Lemma byteAt_0_app (x y : string) (c b : ascii) :
  strings.IndexByte x b < 0 -> c <> b ->
  strings.byteAt (x ++ String c y) 0 <> Some b.
Proof.
  intros Hx Hc. destruct x as [|d x].
  - change ("" ++ String c y) with (String c y).
    change (strings.byteAt (String c y) 0) with (Some c). congruence.
  - change (String d x ++ String c y) with (String d (x ++ String c y)).
    change (strings.byteAt (String d (x ++ String c y)) 0) with (Some d).
    apply IndexByte_cons in Hx as [Hd _]. congruence.
Qed.

(** Joining a host and a port that hold no colon and no bracket, and
    splitting the result, gives the two back. *)
Lemma SplitHostPort_JoinHostPort (host port : string) :
  strings.IndexByte host ":" < 0 -> strings.IndexByte host "[" < 0 ->
  strings.IndexByte host "]" < 0 ->
  strings.IndexByte port ":" < 0 -> strings.IndexByte port "[" < 0 ->
  strings.IndexByte port "]" < 0 ->
  net.SplitHostPort (net.JoinHostPort host port) = inl (host, port).
Proof.
  intros Hh1 Hh2 Hh3 Hp1 Hp2 Hp3.
  unfold net.JoinHostPort.
  destruct (0 <=? strings.IndexByte host ":") eqn:Hc; [apply Z.leb_le in Hc; lia|].
  change (host ++ ":" ++ port) with (host ++ String ":" port).
  unfold net.SplitHostPort. cbv zeta.
  rewrite (LastIndexByte_app host port ":" Hp1).
  destruct (strings.len host <? 0) eqn:Hlen;
    [apply Z.ltb_lt in Hlen; unfold strings.len in Hlen; lia|].
  rewrite bool_decide_false
    by (apply byteAt_0_app; [exact Hh2|discriminate]).
  rewrite slice_app_l, Hc, sliceFrom_0, sliceFrom_app_r.
  assert (Hb1 : strings.IndexByte (host ++ String ":" port) "[" < 0).
  { apply IndexByte_app. split; [exact Hh2|].
    apply IndexByte_cons. split; [discriminate|exact Hp2]. }
  assert (Hb2 : strings.IndexByte (host ++ String ":" port) "]" < 0).
  { apply IndexByte_app. split; [exact Hh3|].
    apply IndexByte_cons. split; [discriminate|exact Hp3]. }
  apply Z.leb_gt in Hb1, Hb2. rewrite Hb1, Hb2. reflexivity.
Qed.

End MoreAddressFacts.

(** X11. Whenever [Run] serves, the endpoint it has registered the
    gateway with is itself a well-formed address: it splits into the
    host 127.0.0.1 and the port of the listen address, which holds no
    colon and no bracket. *)
Theorem Run_gateway_endpoint_splits_back :
  forall (w : World) (s : Server) (st : St),
    Run w s = (Blocking, st) ->
    exists host port h,
      net.SplitHostPort (address s) = inl (host, port)
      /\ server (self st) = Some h
      /\ muxHandler (routes h) "/"
         = Some (Gateway {| upstream := net.JoinHostPort "127.0.0.1" port;
                            gwOpts := gatewayDialOptions |})
      /\ net.SplitHostPort (net.JoinHostPort "127.0.0.1" port)
         = inl ("127.0.0.1", port).
Proof.
  intros w s st H.
  apply Run_blocking_inv in H as (host & port & _ & _ & Hsplit & _ & _ & ->).
  exists host, port, (httpFor port true).
  split; [exact Hsplit|]. split; [reflexivity|]. split; [reflexivity|].
  destruct (SplitHostPort_port_clean _ _ _ Hsplit) as (Hp1 & Hp2 & Hp3).
  apply SplitHostPort_JoinHostPort; try assumption; cbn; lia.
Qed.

Lemma Run_gateway_endpoint_witness :
  net.SplitHostPort
    (net.JoinHostPort "127.0.0.1" "7000")
  = inl ("127.0.0.1", "7000")
  /\ net.SplitHostPort "[::1]:7000" = inl ("::1", "7000").
Proof.
  destruct (Run_gateway_endpoint_splits_back sample.quiet
              (setAddress "[::1]:7000" sample.built)
              (snd (Run sample.quiet (setAddress "[::1]:7000" sample.built)))
              eq_refl)
    as (host & port & h & Hsplit & _ & _ & Hback).
  injection Hsplit as <- <-. split; [exact Hback|reflexivity].
Defined.

(** X12. An address without a colon has no port: [Run] on it never
    serves, it returns an error and leaves [s.server] as it was. On the
    empty address, which [net.Listen] takes, the error is the
    missing-port error of [SplitHostPort] wrapped as an invalid
    address. *)
Theorem Run_address_without_port :
  forall (w : World) (s : Server),
    ~ occursIn ":" (address s) ->
    (exists e, fst (Run w s) = Returned (Some e))
    /\ server (self (snd (Run w s))) = server s
    /\ (address s = "" ->
        loggerErr w = None -> listenErr w "" = None ->
        fst (Run w s)
        = Returned (Some (Wrap (ErrOther "missing port in address")
                               "invalid address "))).
Proof.
  intros w s Hno.
  assert (Hi : strings.LastIndexByte (address s) ":" < 0).
  { destruct (Z_lt_ge_dec (strings.LastIndexByte (address s) ":") 0) as [|Hge];
      [assumption|].
    exfalso. apply Hno. eexists _, _.
    apply (LastIndexByte_split (address s) ":"). lia. }
  assert (Hsplit : net.SplitHostPort (address s)
                   = inr (net.addrErr (address s) net.missingPort)).
  { unfold net.SplitHostPort. apply Z.ltb_lt in Hi. rewrite Hi. reflexivity. }
  destruct (loggerErr w) as [e1|] eqn:H1.
  { rewrite (Run_logger_fails w s e1 H1).
    split; [eexists; reflexivity|]. split; [reflexivity|]. discriminate. }
  destruct (listenErr w (address s)) as [e2|] eqn:H2.
  { rewrite (Run_listen_fails w s e2 H1 H2).
    split; [eexists; reflexivity|]. split; [reflexivity|].
    intros Ha _ Hl. rewrite Ha in H2. congruence. }
  rewrite (Run_address_invalid w s _ H1 H2 Hsplit).
  split; [eexists; reflexivity|]. split; [reflexivity|].
  intros Ha _ _. rewrite Ha. reflexivity.
Qed.

Lemma no_colon_in_empty : ~ occursIn ":" "".
Proof.
  intros (pre & post & H). destruct pre; discriminate H.
Qed.

Lemma Run_address_without_port_witness :
  fst (Run sample.quiet (setAddress "" sample.built))
  = Returned (Some (Wrap (ErrOther "missing port in address")
                         "invalid address ")).
Proof.
  destruct (Run_address_without_port sample.quiet
              (setAddress "" sample.built) no_colon_in_empty)
    as (_ & _ & H).
  apply (H eq_refl eq_refl eq_refl).
Defined.

(** ** The routing table *)

Lemma matchLongest_map {A B} (f : A -> B) (m : ServeMux A) (path : string) :
  forall best : option (string * A),
    matchLongest (List.map (fun '(p, t) => (p, f t)) m) path
                 ((fun '(p, t) => (p, f t)) <$> best)
    = (fun '(p, t) => (p, f t)) <$> matchLongest m path best.
Proof.
  induction m as [|[p t] m IH]; intros best; [reflexivity|].
  cbn [List.map matchLongest]. rewrite <- IH. f_equal.
  destruct best as [[q u]|]; cbn [fmap option_fmap option_map];
    destruct (pathMatch p path); cbn [andb];
    try destruct (String.length q <? String.length p)%nat; reflexivity.
Qed.

Lemma muxHandler_handlersOf (E : Collaborators) (m : ServeMux MuxTarget)
      (path : string) :
  muxHandler (handlersOf E m) path = targetHandler E <$> muxHandler m path.
Proof.
  unfold muxHandler, handlersOf.
  assert (H := matchLongest_map (targetHandler E) m path None).
  change ((fun '(p, t) => (p, targetHandler E t)) <$> None)
    with (@None (string * Handler)) in H.
  rewrite H.
  destruct (matchLongest m path None) as [[p t]|]; reflexivity.
Qed.

Lemma newMux_routeOf (gw : GatewayMux) (path : string) :
  muxHandler (newMux gw) path = routeOf gw path.
Proof.
  unfold routeOf.
  destruct (String.eqb_spec path "/metrics") as [->|Hm]; [reflexivity|].
  destruct (String.eqb_spec path "/healthz") as [->|Hh]; [reflexivity|].
  unfold muxHandler, newMux. cbn [matchLongest].
  assert (H1 : pathMatch "/metrics" path = false).
  { change (pathMatch "/metrics" path) with (String.eqb "/metrics" path).
    apply String.eqb_neq. congruence. }
  assert (H2 : pathMatch "/healthz" path = false).
  { change (pathMatch "/healthz" path) with (String.eqb "/healthz" path).
    apply String.eqb_neq. congruence. }
  change (pathMatch "/" path) with (strings.HasPrefix path "/").
  rewrite H1, H2. cbn [andb].
  destruct (strings.HasPrefix path "/"); reflexivity.
Qed.

(** X13. The mux of [Run] sends the path /metrics to the metrics
    handler, the path /healthz to [healthz], every other path that
    starts with a slash to the gateway (the paths below /healthz and
    /metrics included), and has no handler for the rest. A request that
    the demultiplexer gives to the mux, with a clean path, is answered
    by the handler so chosen, or by 404. *)
Theorem Run_routing_table :
  forall (E : Collaborators) (s : Server) (port : string) (open : bool)
         (w : ResponseWriter) (r : Request),
    isGrpcRequest r = false ->
    Method r = "CONNECT" \/ cleanPath (Path r) = Path r ->
    muxHandler (newMux (gatewayFor port)) (Path r)
    = routeOf (gatewayFor port) (Path r)
    /\ ServeHTTP E (installed s port open) w r
       = match routeOf (gatewayFor port) (Path r) with
         | Some t => targetHandler E t w r
         | None => NotFound w r
         end
    /\ (routeOf (gatewayFor port) (Path r) = Some Healthz <-> Path r = "/healthz")
    /\ (routeOf (gatewayFor port) (Path r) = Some Metrics <-> Path r = "/metrics")
    /\ (routeOf (gatewayFor port) (Path r) = None
        <-> strings.HasPrefix (Path r) "/" = false).
Proof.
  intros E s port open w r Hg Hclean.
  split; [apply newMux_routeOf|]. split.
  - rewrite ServeHTTP_installed_mux by exact Hg.
    rewrite muxServeHTTP_clean by exact Hclean.
    rewrite muxHandler_handlersOf, newMux_routeOf.
    destruct (routeOf (gatewayFor port) (Path r)); reflexivity.
  - unfold routeOf.
    destruct (String.eqb_spec (Path r) "/metrics") as [Hm|Hm].
    { rewrite Hm. repeat split; intros; try discriminate; reflexivity. }
    destruct (String.eqb_spec (Path r) "/healthz") as [Hh|Hh].
    { rewrite Hh. repeat split; intros; try discriminate; reflexivity. }
    destruct (strings.HasPrefix (Path r) "/");
      repeat split; intros; try discriminate; try contradiction; reflexivity.
Qed.

Lemma Run_routing_table_witness :
  ServeHTTP sample.collaborators (installed sample.built "8080" true)
            freshWriter sample2.metricsGet
  = Write freshWriter "# no metrics".
Proof.
  destruct (Run_routing_table sample.collaborators sample.built "8080" true
              freshWriter sample2.metricsGet eq_refl (or_intror eq_refl))
    as (_ & H & _).
  rewrite H. reflexivity.
Defined.

(** ** The Content-Type the demultiplexer reads *)

(** X14. The demultiplexer reads the first Content-Type value only: a
    request with no Content-Type, or with an empty list of values, goes
    to the mux whatever its protocol version, and when there are several
    values the later ones play no part. *)
Theorem dispatch_reads_first_content_type :
  forall r : Request,
    (Hdr r !! "Content-Type" = None \/ Hdr r !! "Content-Type" = Some [] ->
     dispatch r = ToMux)
    /\ (forall v vs,
          Hdr r !! "Content-Type" = Some (v :: vs) ->
          (dispatch r = ToGrpc <->
           ProtoMajor r = 2 /\ occursIn "application/grpc" v)).
Proof.
  intros r. split.
  - intros H. apply dispatch_mux. unfold isGrpcRequest, Get.
    change (CanonicalMIMEHeaderKey "Content-Type") with "Content-Type".
    destruct H as [-> | ->]; apply andb_false_r.
  - intros v vs H. rewrite dispatch_grpc, isGrpcRequest_spec. unfold Get.
    change (CanonicalMIMEHeaderKey "Content-Type") with "Content-Type".
    rewrite H. reflexivity.
Qed.

Lemma dispatch_reads_first_content_type_witness :
  dispatch sample2.twoTypes = ToMux /\ dispatch sample.healthzGet = ToMux.
Proof.
  split.
  - destruct (dispatch_reads_first_content_type sample2.twoTypes) as [_ H].
    specialize (H "application/json" ["application/grpc"] eq_refl).
    destruct (dispatch sample2.twoTypes) eqn:Hd; [|reflexivity].
    exfalso. apply proj1 in H. destruct (H eq_refl) as [_ (pre & post & Heq)].
    assert (Hc : strings.Contains "application/json" "application/grpc" = true).
    { apply Contains_spec. eauto. }
    discriminate Hc.
  - destruct (dispatch_reads_first_content_type sample.healthzGet) as [H _].
    apply H. left. reflexivity.
Defined.

(** ** More on the interceptor chain *)

(** The outcome of one stage. *)
Lemma runStage_result (st : grpc.ServerStage) (b : grpc.Behaviour)
      (ctx : grpc.Ctx) (c : grpc.Call) (h : grpc.UnaryHandler) :
  fst (grpc.runStage st b ctx c h)
  = match grpc.before b ctx c with
    | inl ctx' => grpc.after b ctx c (fst (h ctx' c))
    | inr r => r
    end.
Proof.
  unfold grpc.runStage, grpc.bind, grpc.tell, grpc.ret.
  destruct (grpc.before b ctx c) as [ctx'|r]; simpl; [|reflexivity].
  destruct (h ctx' c) as [r l]; reflexivity.
Qed.

(** X16. A call that the validator turns away has been through the
    identity stage and the sleeper, and through nothing else: the
    metrics, logging and recovery stages are not entered and the service
    method does not run; the validator's status goes back through the
    first two stages only. *)
Theorem validator_rejection_skips_later_stages :
  forall (E : Collaborators) (g : grpc.Server (option orderStore))
         (ctx : grpc.Ctx) (c : grpc.Call),
    grpc.chain g = serverInterceptors ->
    knownMethod E (grpc.fullMethod c) = true ->
    proceeds E grpc.UtilServer c ->
    proceeds E (grpc.UtilSleeper (time.Second * 3)) c ->
    (forall ctx', exists res,
        grpc.before (stageBehaviour E grpc.Validator) ctx' c = inr res) ->
    let log := snd (handleUnary E g ctx c) in
    grpc.entered log
    = [grpc.UtilServer; grpc.UtilSleeper (time.Second * 3); grpc.Validator]
    /\ grpc.invocations log = O
    /\ exists ctx1 ctx2 res,
         grpc.before (stageBehaviour E grpc.Validator) ctx2 c = inr res
         /\ fst (handleUnary E g ctx c)
            = grpc.after (stageBehaviour E grpc.UtilServer) ctx c
                (grpc.after (stageBehaviour E (grpc.UtilSleeper (time.Second * 3)))
                            ctx1 c res).
Proof.
  intros E g ctx c Hc Hk Hp1 Hp2 Hv log. subst log.
  unfold handleUnary, unaryInt, chainOf. rewrite Hk, Hc.
  unfold serverInterceptors. cbn [List.map grpc.ChainUnaryServer].
  destruct (Hp1 ctx) as [ctx1 H1]. destruct (Hp2 ctx1) as [ctx2 H2].
  destruct (Hv ctx2) as [res H3].
  rewrite !runStage_log, !runStage_result, H1.
  rewrite !runStage_log, !runStage_result, H2.
  rewrite !runStage_log, !runStage_result, H3.
  split; [reflexivity|]. split; [reflexivity|].
  exists ctx1, ctx2, res. split; [exact H3|reflexivity].
Qed.

Lemma validator_rejection_witness :
  grpc.entered
    (snd (handleUnary sample.collaborators (grpcFor sample.built) []
                      sample2.emptyCall))
  = [grpc.UtilServer; grpc.UtilSleeper (time.Second * 3); grpc.Validator]
  /\ grpc.invocations
       (snd (handleUnary sample.collaborators (grpcFor sample.built) []
                         sample2.emptyCall)) = O.
Proof.
  destruct (validator_rejection_skips_later_stages sample.collaborators
              (grpcFor sample.built) [] sample2.emptyCall eq_refl eq_refl)
    as (H1 & H2 & _).
  - intros ctx. eexists. reflexivity.
  - intros ctx. eexists. reflexivity.
  - intros ctx. eexists. reflexivity.
  - split; [exact H1|exact H2].
Defined.

(** ** What [Run] reads, and which requests reach the gRPC server *)



(** X18. No call the gRPC server would accept is lost to the mux: an
    HTTP/2 request whose first Content-Type value is application/grpc,
    alone or followed by a plus or a semicolon and more, is given to the
    gRPC server. *)
Theorem valid_grpc_requests_reach_the_grpc_server :
  forall r : Request,
    ProtoMajor r = 2 ->
    wire.validContentType (Get (Hdr r) "Content-Type") = true ->
    dispatch r = ToGrpc
    /\ forall (E : Collaborators) (s : Server) (port : string) (open : bool)
              (w : ResponseWriter),
         ServeHTTP E (installed s port open) w r
         = grpcServeHTTP E (grpcFor s) w r.
Proof.
  intros r Hp Hv.
  assert (Hg : isGrpcRequest r = true).
  { apply isGrpcRequest_spec. split; [exact Hp|].
    unfold wire.validContentType in Hv. apply andb_true_iff in Hv as [Hpre _].
    apply HasPrefix_inv in Hpre as [post Hpost].
    exists "", post. exact Hpost. }
  split; [apply dispatch_grpc; exact Hg|].
  intros E s port open w. apply ServeHTTP_installed_grpc. exact Hg.
Qed.

Lemma valid_grpc_requests_witness : dispatch sample.grpcPost = ToGrpc.
Proof.
  apply (valid_grpc_requests_reach_the_grpc_server sample.grpcPost);
    reflexivity.
Defined.

(** * The gateway and the server's own listener *)






